(** * Apple Xserve USB front-panel driver: a shallow embedding

    The development follows [xserve-frontpanel.c].  Kernel services the
    driver consumes (the counting semaphore, the URB anchor, the coherent
    allocator, [usb_submit_urb], [get_cpu_idle_time], the delayed work
    item) are modelled by their documented behaviour; whatever the
    environment decides (an allocation succeeding, the value returned by
    the host controller, a counter reading, the moment a transfer
    completes) is an explicit argument of the function that consumes it.

    Every driver entry point is one atomic step on [usb_frontpanel].
    [io_mutex] is taken and dropped inside one step by [frontpanel_write]
    and [frontpanel_disconnect], so it has no field of its own; the
    pre-reset hook takes it and the post-reset hook drops it, and a
    history treats the pair as one step.  The structure is counted by a
    [kref] that [frontpanel_probe] sets to 1 and nothing raises, so the
    [kref_put] that ends [frontpanel_disconnect] frees it: a hook that
    frees the structure leaves none ([None]). *)

From Stdlib Require Import ZArith List Lia Bool.
From stdpp Require Import base list.
Import ListNotations.
Local Open Scope Z_scope.

(** ** Constants of the driver and of the kernel headers *)

Definition PANEL_DATA_SIZE : Z := 32.
Definition CPU_SAMPLING_RATE : Z := 250.
Definition WRITES_IN_FLIGHT : Z := 8.

(** Number of entries of [struct usb_frontpanel.cpu]. *)
Definition RACKMETER_CPUS : nat := 16.

(** Values of [errno-base.h] and [errno.h]. *)
Module Errno.
Definition ENOENT : Z := 2.
Definition EIO : Z := 5.
Definition EAGAIN : Z := 11.
Definition ENOMEM : Z := 12.
Definition ENODEV : Z := 19.
Definition EPIPE : Z := 32.
Definition EPROTO : Z := 71.
Definition ECONNRESET : Z := 104.
Definition ESHUTDOWN : Z := 108.
End Errno.
Import Errno.

(** ** Fixed-width integers *)

Module Int.
Definition to_u8 (z : Z) : Z := z mod 2 ^ 8.
Definition to_u32 (z : Z) : Z := z mod 2 ^ 32.
Definition to_u64 (z : Z) : Z := z mod 2 ^ 64.
(** Two's complement reading of the low 64 bits. *)
Definition to_s64 (z : Z) : Z := (z + 2 ^ 63) mod 2 ^ 64 - 2 ^ 63.
End Int.
Import Int.

(** ** Faults

    [div64_u64] by zero raises a divide error in kernel context; the
    work function does not return from it. *)

Inductive result (A : Type) : Type :=
| Ok (a : A)
| Oops.
Arguments Ok {A} a.
Arguments Oops {A}.

Definition bind {A B : Type} (r : result A) (k : A -> result B) : result B :=
  match r with
  | Ok a => k a
  | Oops => Oops
  end.

Notation "'do' x <- r ; k" := (bind r (fun x => k))
  (at level 10, x name, r at level 100, k at level 200).

Fixpoint foldM {A B : Type} (f : A -> B -> result A) (a : A) (l : list B)
  : result A :=
  match l with
  | [] => Ok a
  | b :: l' => do a' <- f a b; foldM f a' l'
  end.

Definition div64_u64 (dividend divisor : Z) : result Z :=
  if divisor =? 0 then Oops else Ok (dividend / divisor).

(** ** Device state *)

Record rackmeter_cpu : Type := RackmeterCpu {
  prev_wall : Z;
  prev_idle : Z
}.

(** What a submitted URB carries: the coherent buffer and its length. *)
Record urb : Type := Urb {
  transfer_buffer : list Z;
  transfer_buffer_length : Z
}.

(** Lines written with [dev_err]. *)
Inductive log_msg : Type :=
| BulkStatus (status : Z)
| SubmitFailed (retval : Z)
| WriteFailed (ret : Z).

Record usb_frontpanel : Type := UsbFrontpanel {
  limit_sem : Z;            (* count of the semaphore *)
  submitted : list urb;     (* the anchor, oldest first *)
  errors : Z;
  disconnected : bool;
  sniffer : bool;           (* the delayed work is pending *)
  buffer : list Z;          (* __u8 buffer[PANEL_DATA_SIZE] *)
  cpu : list rackmeter_cpu; (* struct rackmeter_cpu cpu[16] *)
  dmesg : list log_msg      (* newest last *)
}.

Definition set_limit_sem (v : Z) (d : usb_frontpanel) : usb_frontpanel :=
  UsbFrontpanel v (submitted d) (errors d) (disconnected d) (sniffer d)
                (buffer d) (cpu d) (dmesg d).
Definition set_submitted (v : list urb) (d : usb_frontpanel) : usb_frontpanel :=
  UsbFrontpanel (limit_sem d) v (errors d) (disconnected d) (sniffer d)
                (buffer d) (cpu d) (dmesg d).
Definition set_errors (v : Z) (d : usb_frontpanel) : usb_frontpanel :=
  UsbFrontpanel (limit_sem d) (submitted d) v (disconnected d) (sniffer d)
                (buffer d) (cpu d) (dmesg d).
Definition set_disconnected (v : bool) (d : usb_frontpanel) : usb_frontpanel :=
  UsbFrontpanel (limit_sem d) (submitted d) (errors d) v (sniffer d)
                (buffer d) (cpu d) (dmesg d).
Definition set_sniffer (v : bool) (d : usb_frontpanel) : usb_frontpanel :=
  UsbFrontpanel (limit_sem d) (submitted d) (errors d) (disconnected d) v
                (buffer d) (cpu d) (dmesg d).
Definition set_buffer (v : list Z) (d : usb_frontpanel) : usb_frontpanel :=
  UsbFrontpanel (limit_sem d) (submitted d) (errors d) (disconnected d)
                (sniffer d) v (cpu d) (dmesg d).
Definition set_cpu (v : list rackmeter_cpu) (d : usb_frontpanel)
  : usb_frontpanel :=
  UsbFrontpanel (limit_sem d) (submitted d) (errors d) (disconnected d)
                (sniffer d) (buffer d) v (dmesg d).
Definition dev_err (m : log_msg) (d : usb_frontpanel) : usb_frontpanel :=
  UsbFrontpanel (limit_sem d) (submitted d) (errors d) (disconnected d)
                (sniffer d) (buffer d) (cpu d) (dmesg d ++ [m]).

(** ** Semaphore and anchor *)

(** [down_trylock]: [true] when the semaphore could not be taken. *)
Definition down_trylock (d : usb_frontpanel) : bool * usb_frontpanel :=
  let count := limit_sem d - 1 in
  if 0 <=? count then (false, set_limit_sem count d) else (true, d).

Definition up (d : usb_frontpanel) : usb_frontpanel :=
  set_limit_sem (limit_sem d + 1) d.

Definition usb_anchor_urb (u : urb) (d : usb_frontpanel) : usb_frontpanel :=
  set_submitted (submitted d ++ [u]) d.

(** [usb_unanchor_urb] as [frontpanel_write] uses it: on the URB it has
    just anchored, which sits at the tail. *)
Definition usb_unanchor_urb (d : usb_frontpanel) : usb_frontpanel :=
  set_submitted (removelast (submitted d)) d.

(** ** Completion callback *)

Definition benign (status : Z) : bool :=
  (status =? - ENOENT) || (status =? - ECONNRESET) || (status =? - ESHUTDOWN).

Definition frontpanel_write_bulk_callback (status : Z) (dev : usb_frontpanel)
  : usb_frontpanel :=
  let dev :=
    if negb (status =? 0) then
      let dev := if negb (benign status)
                 then dev_err (BulkStatus status) dev else dev in
      set_errors status dev
    else dev in
  (* usb_free_coherent *)
  up dev.

(** ** Write submission *)

(** What the environment decides during one call of [frontpanel_write]. *)
Record write_env : Type := WriteEnv {
  alloc_urb_ok : bool;       (* usb_alloc_urb returned a URB *)
  alloc_coherent_ok : bool;  (* usb_alloc_coherent returned a buffer *)
  submit_urb_ret : Z         (* value returned by usb_submit_urb *)
}.

(** Label [error:] for a call that holds no URB, or holds one that was
    never anchored: free what was allocated, [up], return [retval]. *)
Definition write_error (retval : Z) (dev : usb_frontpanel)
  : Z * usb_frontpanel :=
  (retval, up dev).

(** Lines 133-141: read the error field under [err_lock]; a negative
    value is cleared and reported as [-EPIPE] or [-EIO]. *)
Definition take_errors (dev : usb_frontpanel) : Z * usb_frontpanel :=
  let retval := errors dev in
  if retval <? 0
  then ((if retval =? - EPIPE then retval else - EIO), set_errors 0 dev)
  else (retval, dev).

(** [data] is the memory at [buffer], [count] a [size_t]. *)
Definition frontpanel_write (env : write_env) (dev : usb_frontpanel)
    (data : list Z) (count : Z) : Z * usb_frontpanel :=
  let writesize := Z.min count PANEL_DATA_SIZE in
  let '(busy, dev) := down_trylock dev in
  if busy then (- EAGAIN, dev) else
  let '(retval, dev) := take_errors dev in
  if retval <? 0 then write_error retval dev else
  if negb (alloc_urb_ok env) then write_error (- ENOMEM) dev else
  if negb (alloc_coherent_ok env) then write_error (- ENOMEM) dev else
  let buf := firstn (Z.to_nat writesize) data in
  if disconnected dev then write_error (- ENODEV) dev else
  let dev := usb_anchor_urb (Urb buf writesize) dev in
  let retval := submit_urb_ret env in
  if negb (retval =? 0) then
    let dev := dev_err (SubmitFailed retval) dev in
    (* error_unanchor: *)
    write_error retval (usb_unanchor_urb dev)
  else (writesize, dev).

(** ** Periodic sampler *)

(** [for_each_online_cpu]: the bits set in [cpu_online_mask] below
    [nr_cpu_ids], in increasing order. *)
Definition online_cpus (nr_cpu_ids : nat) (cpu_online_mask : Z) : list nat :=
  List.filter (fun c => Z.testbit cpu_online_mask (Z.of_nat c))
              (seq 0 nr_cpu_ids).

(** A [u64] difference stored in an [s64]. *)
Definition s64_diff (cur prev : Z) : Z := to_s64 (to_u64 (cur - prev)).

Definition clamp_wall (diff_idle diff_wall : Z) : Z :=
  if diff_idle >? diff_wall then diff_idle else diff_wall.

(** Lines 225-229.  The product is computed in [s64], handed to
    [div64_u64] as [u64], and the quotient stored in an [unsigned int]. *)
Definition rackmeter_load (diff_idle diff_wall : Z) : result Z :=
  let diff_wall := clamp_wall diff_idle diff_wall in
  do q <- div64_u64 (to_u64 (to_s64 (255 * to_s64 (diff_wall - diff_idle))))
                    (to_u64 diff_wall);
  Ok (to_u32 q).

(** One iteration of the loop of [rackmeter_do_timer]; the state carries
    the device and the local [updated].  [get_cpu_idle_time c] is the
    pair (idle, wall) read for core [c]. *)
Definition do_timer_cpu (get_cpu_idle_time : nat -> Z * Z)
    (st : usb_frontpanel * bool) (c : nat) : result (usb_frontpanel * bool) :=
  let '(dev, updated) := st in
  if (15 <? c)%nat then Ok (dev, updated) else
  let rcpu := default (RackmeterCpu 0 0) (cpu dev !! c) in
  let '(cpu_idle, cpu_wall) := get_cpu_idle_time c in
  let diff_idle := s64_diff cpu_idle (prev_idle rcpu) in
  let diff_wall := s64_diff cpu_wall (prev_wall rcpu) in
  do load <- rackmeter_load diff_idle diff_wall;
  let '(dev, updated) :=
    if negb (default 0 (buffer dev !! c) =? to_u8 load)
    then (set_buffer (<[c := to_u8 load]> (buffer dev)) dev, true)
    else (dev, updated) in
  Ok (set_cpu (<[c := RackmeterCpu cpu_wall cpu_idle]> (cpu dev)) dev, updated).

(** A call of [frontpanel_write] made by the sampler. *)
Record write_call : Type := WriteCall {
  wc_data : list Z;
  wc_count : Z;
  wc_ret : Z
}.

(** The work function.  Its result lists the calls of [frontpanel_write]
    it made; [env] is what the environment decides during such a call. *)
Definition rackmeter_do_timer (nr_cpu_ids : nat) (cpu_online_mask : Z)
    (get_cpu_idle_time : nat -> Z * Z) (env : write_env)
    (dev : usb_frontpanel) : result (usb_frontpanel * list write_call) :=
  do st <- foldM (do_timer_cpu get_cpu_idle_time) (dev, false)
                 (online_cpus nr_cpu_ids cpu_online_mask);
  let '(dev, updated) := st in
  let '(dev, calls) :=
    if updated : bool then
      let '(ret, dev') := frontpanel_write env dev (buffer dev) PANEL_DATA_SIZE in
      let dev' := if ret <=? 0 then dev_err (WriteFailed ret) dev' else dev' in
      (dev', [WriteCall (buffer dev) PANEL_DATA_SIZE ret])
    else (dev, []) in
  (* schedule_delayed_work_on *)
  Ok (set_sniffer true dev, calls).

Definition rackmeter_init_cpu_sniffer (nr_cpu_ids : nat) (cpu_online_mask : Z)
    (dev : usb_frontpanel) : usb_frontpanel :=
  let dev :=
    foldl (fun dev c =>
             if (15 <? c)%nat then dev
             else set_cpu (<[c := RackmeterCpu 0 0]> (cpu dev)) dev)
          dev (online_cpus nr_cpu_ids cpu_online_mask) in
  set_sniffer true dev.

(** [cancel_delayed_work_sync]. *)
Definition rackmeter_stop_cpu_sniffer (dev : usb_frontpanel) : usb_frontpanel :=
  set_sniffer false dev.

(** ** Attach, detach, suspend *)

(** The zeroed structure [kzalloc] returns. *)
Definition kzalloc_dev : usb_frontpanel :=
  UsbFrontpanel 0 [] 0 false false
                (replicate (Z.to_nat PANEL_DATA_SIZE) 0)
                (replicate RACKMETER_CPUS (RackmeterCpu 0 0)) [].

(** [frontpanel_probe]; [find_endpoints_ret] is the value returned by
    [usb_find_common_endpoints].  A failed probe leaves no device. *)
Definition frontpanel_probe (kzalloc_ok : bool) (find_endpoints_ret : Z)
    (nr_cpu_ids : nat) (cpu_online_mask : Z) : Z * option usb_frontpanel :=
  if negb kzalloc_ok then (- ENOMEM, None) else
  (* sema_init; the anchor starts empty *)
  let dev := set_limit_sem WRITES_IN_FLIGHT kzalloc_dev in
  if negb (find_endpoints_ret =? 0) then (find_endpoints_ret, None) else
  (0, Some (rackmeter_init_cpu_sniffer nr_cpu_ids cpu_online_mask dev)).

(** The host controller gives back the anchored URB at position [i] with
    [status]: the core unanchors it, then runs its completion callback. *)
Definition usb_hcd_giveback_urb (i : nat) (status : Z) (dev : usb_frontpanel)
  : usb_frontpanel :=
  match submitted dev !! i with
  | None => dev
  | Some _ =>
      frontpanel_write_bulk_callback status
        (set_submitted (delete i (submitted dev)) dev)
  end.

(** [usb_kill_urb] on the tail of the anchor: the URB is given back with
    [-ENOENT]. *)
Definition usb_kill_urb (dev : usb_frontpanel) : usb_frontpanel :=
  frontpanel_write_bulk_callback (- ENOENT) (usb_unanchor_urb dev).

Fixpoint kill_urbs (n : nat) (dev : usb_frontpanel) : usb_frontpanel :=
  match n with
  | O => dev
  | S n' => kill_urbs n' (usb_kill_urb dev)
  end.

(** [usb_kill_anchored_urbs]: kill from the tail until the anchor is
    empty. *)
Definition usb_kill_anchored_urbs (dev : usb_frontpanel) : usb_frontpanel :=
  kill_urbs (length (submitted dev)) dev.

(** Lines 326-333 of [frontpanel_disconnect]: what the hook does to the
    structure before it drops its reference. *)
Definition disconnect_quiesce (dev : usb_frontpanel) : usb_frontpanel :=
  let dev := rackmeter_stop_cpu_sniffer dev in
  (* under io_mutex *)
  let dev := set_disconnected true dev in
  usb_kill_anchored_urbs dev.

(** The counter [kref_init] leaves.  The driver has no [kref_get], so
    this is the counter of every structure a probe has returned. *)
Definition kref_init : Z := 1.

(** [frontpanel_delete]: [usb_put_intf], [usb_put_dev], [kfree].  No
    structure is left. *)
Definition frontpanel_delete (dev : usb_frontpanel) : option usb_frontpanel :=
  None.

(** [kref_put(&dev->kref, frontpanel_delete)] on a counter that stands
    at [refcount]: the structure survives unless the counter reaches 0. *)
Definition kref_put (refcount : Z) (dev : usb_frontpanel)
  : option usb_frontpanel :=
  if refcount - 1 =? 0 then frontpanel_delete dev else Some dev.

(** The hook ends by dropping the reference the probe took. *)
Definition frontpanel_disconnect (dev : usb_frontpanel)
  : option usb_frontpanel :=
  kref_put kref_init (disconnect_quiesce dev).

(** A transfer the hardware finishes while the driver waits: [at_ms]
    milliseconds after the wait began, the URB at position [which] of the
    anchor is given back with [status]. *)
Record arrival : Type := Arrival {
  at_ms : Z;
  which : nat;
  status : Z
}.

(** [usb_wait_anchor_empty_timeout]: sleep until the anchor is empty or
    [timeout] milliseconds have passed; the result is 0 when the time ran
    out, and the time left (at least 1) otherwise.  Completions due at or
    after [timeout] are not seen. *)
Fixpoint wait_anchor_empty (timeout now : Z) (arrivals : list arrival)
    (dev : usb_frontpanel) : Z * usb_frontpanel :=
  match submitted dev with
  | [] => (Z.max 1 (timeout - now), dev)
  | _ :: _ =>
      match arrivals with
      | [] => (0, dev)
      | a :: rest =>
          if at_ms a <? timeout
          then wait_anchor_empty timeout (Z.max now (at_ms a)) rest
                 (usb_hcd_giveback_urb (which a) (status a) dev)
          else wait_anchor_empty timeout now rest dev
      end
  end.

Definition usb_wait_anchor_empty_timeout (timeout : Z)
    (arrivals : list arrival) (dev : usb_frontpanel) : Z * usb_frontpanel :=
  wait_anchor_empty timeout 0 arrivals dev.

Definition frontpanel_draw_down (arrivals : list arrival)
    (dev : usb_frontpanel) : usb_frontpanel :=
  let '(time, dev) := usb_wait_anchor_empty_timeout 1000 arrivals dev in
  if time =? 0 then usb_kill_anchored_urbs dev else dev.

(** [intfdata] is what [usb_get_intfdata] returns. *)
Definition frontpanel_suspend (arrivals : list arrival)
    (intfdata : option usb_frontpanel) : Z * option usb_frontpanel :=
  match intfdata with
  | None => (0, None)
  | Some dev => (0, Some (frontpanel_draw_down arrivals dev))
  end.

Definition frontpanel_resume : Z := 0.

(** [io_mutex] is taken here and kept. *)
Definition frontpanel_pre_reset (arrivals : list arrival)
    (dev : usb_frontpanel) : Z * usb_frontpanel :=
  (0, frontpanel_draw_down arrivals dev).

(** [io_mutex] is dropped here. *)
Definition frontpanel_post_reset (dev : usb_frontpanel) : Z * usb_frontpanel :=
  (0, set_errors (- EPIPE) dev).

(** ** Histories of a device

    [Disconnect] stands for lines 326-333 of [frontpanel_disconnect].
    The driver's own histories end there, since the hook then frees the
    structure; a history that goes on describes a structure that another
    holder of a reference would keep alive, and a property of all
    histories holds of the driver's. *)

Inductive event : Type :=
| Write (env : write_env) (data : list Z) (count : Z)
| Giveback (i : nat) (status : Z)
| Suspend (arrivals : list arrival)
| Reset (arrivals : list arrival)
| Disconnect.

Definition step (dev : usb_frontpanel) (e : event) : usb_frontpanel :=
  match e with
  | Write env data count => snd (frontpanel_write env dev data count)
  | Giveback i status => usb_hcd_giveback_urb i status dev
  | Suspend arrivals => frontpanel_draw_down arrivals dev
  | Reset arrivals =>
      snd (frontpanel_post_reset (snd (frontpanel_pre_reset arrivals dev)))
  | Disconnect => disconnect_quiesce dev
  end.

Definition run (dev : usb_frontpanel) (es : list event) : usb_frontpanel :=
  foldl step dev es.

(** The device a successful probe leaves. *)
Definition probed : usb_frontpanel :=
  set_sniffer true (set_limit_sem WRITES_IN_FLIGHT kzalloc_dev).

(** An environment in which a write is accepted. *)
Definition accepting : write_env := WriteEnv true true 0.

(** ** Vocabulary of the statements *)

(** The code a pending error is reported as. *)
Definition reported (e : Z) : Z := if e =? - EPIPE then - EPIPE else - EIO.

(** The call reaches [return writesize]. *)
Definition write_accepted (env : write_env) (dev : usb_frontpanel) : bool :=
  (0 <? limit_sem dev) && (0 <=? errors dev)
  && alloc_urb_ok env && alloc_coherent_ok env
  && negb (disconnected dev) && (submit_urb_ret env =? 0).

(** Free slots plus operations in flight. *)
Definition slots (dev : usb_frontpanel) : Z :=
  limit_sem dev + Z.of_nat (length (submitted dev)).

(** Writes the allocator and the host controller accept. *)
Definition accepted_writes (calls : list (list Z * Z)) : list event :=
  map (fun c => Write accepting (fst c) (snd c)) calls.

(** The load [rackmeter_do_timer] computes for core [c] from the reading
    [get_cpu_idle_time c] and the sample kept in [dev]. *)
Definition core_load (get_cpu_idle_time : nat -> Z * Z) (dev : usb_frontpanel)
    (c : nat) : result Z :=
  let rcpu := default (RackmeterCpu 0 0) (cpu dev !! c) in
  rackmeter_load (s64_diff (fst (get_cpu_idle_time c)) (prev_idle rcpu))
                 (s64_diff (snd (get_cpu_idle_time c)) (prev_wall rcpu)).

(** Successive cycles, each with its readings and its environment;
    [emitted] is the payload of the latest call of [frontpanel_write]. *)
Fixpoint sampler_cycles (nr_cpu_ids : nat) (cpu_online_mask : Z)
    (inputs : list ((nat -> Z * Z) * write_env)) (dev : usb_frontpanel)
    (emitted : list Z) : result (usb_frontpanel * list Z) :=
  match inputs with
  | [] => Ok (dev, emitted)
  | input :: rest =>
      do r <- rackmeter_do_timer nr_cpu_ids cpu_online_mask
                (fst input) (snd input) dev;
      sampler_cycles nr_cpu_ids cpu_online_mask rest (fst r)
        (List.last (map wc_data (snd r)) emitted)
  end.

(** The completions of several URBs, oldest first, as the callback sees
    them. *)
Definition completions (statuses : list Z) (dev : usb_frontpanel)
  : usb_frontpanel :=
  foldl (fun d status => frontpanel_write_bulk_callback status d) dev statuses.

(** A status the callback writes to the log. *)
Definition logged (status : Z) : bool :=
  negb (status =? 0) && negb (benign status).

(** What an anchored URB may carry. *)
Definition urb_fits (u : urb) : Prop :=
  transfer_buffer_length u <= PANEL_DATA_SIZE /\
  (length (transfer_buffer u) <= Z.to_nat PANEL_DATA_SIZE)%nat.

(** Core [c] is visited by the loops over the online cores. *)
Definition sampled (nr_cpu_ids : nat) (cpu_online_mask : Z) (c : nat) : Prop :=
  In c (online_cpus nr_cpu_ids cpu_online_mask) /\ (c <= 15)%nat.

(** The completions bring back every one of [n] anchored URBs with
    status 0: each names a position of the anchor as it then stands.
    What follows once the anchor is empty is immaterial. *)
Fixpoint completes_all (n : nat) (arrivals : list arrival) : bool :=
  match n, arrivals with
  | O, _ => true
  | S n', a :: rest =>
      (status a =? 0) && (which a <? S n')%nat && completes_all n' rest
  | S _, [] => false
  end.

(** The payload the panel last took: that of the latest of [calls] that
    [frontpanel_write] accepted, and [emitted] when there is none. *)
Definition last_emitted (calls : list write_call) (emitted : list Z)
  : list Z :=
  List.last (map wc_data (List.filter (fun c => 0 <? wc_ret c) calls)) emitted.

(** * Properties *)

(** ** The write path, case by case *)

Lemma up_after_down (dev : usb_frontpanel) :
  up (set_limit_sem (limit_sem dev - 1) dev) = dev.
Proof.
  destruct dev; unfold up, set_limit_sem; simpl.
  f_equal; lia.
Qed.

Lemma down_trylock_busy (dev : usb_frontpanel) :
  limit_sem dev <= 0 -> down_trylock dev = (true, dev).
Proof.
  intros H. unfold down_trylock.
  destruct (Z.leb_spec 0 (limit_sem dev - 1)); [lia | reflexivity].
Qed.

Lemma down_trylock_taken (dev : usb_frontpanel) :
  0 < limit_sem dev ->
  down_trylock dev = (false, set_limit_sem (limit_sem dev - 1) dev).
Proof.
  intros H. unfold down_trylock.
  destruct (Z.leb_spec 0 (limit_sem dev - 1)); [reflexivity | lia].
Qed.

Lemma reported_negative (e : Z) : reported e < 0.
Proof. unfold reported, EPIPE, EIO. destruct (_ =? _); lia. Qed.

(** No slot is free: nothing happens. *)
Lemma write_busy env dev data count :
  limit_sem dev <= 0 ->
  frontpanel_write env dev data count = (- EAGAIN, dev).
Proof.
  intros H. unfold frontpanel_write.
  rewrite (down_trylock_busy dev H). reflexivity.
Qed.

(** A pending error is cleared and reported; the slot is given back. *)
Lemma write_latched env dev data count :
  0 < limit_sem dev -> errors dev < 0 ->
  frontpanel_write env dev data count = (reported (errors dev), set_errors 0 dev).
Proof.
  intros Hs He. unfold frontpanel_write.
  rewrite (down_trylock_taken dev Hs).
  unfold take_errors, reported. simpl errors.
  destruct (Z.ltb_spec (errors dev) 0) as [_|]; [|lia].
  assert (Hup : up (set_errors 0 (set_limit_sem (limit_sem dev - 1) dev))
                = set_errors 0 dev).
  { destruct dev; unfold up, set_errors, set_limit_sem; simpl; f_equal; lia. }
  destruct (Z.eqb_spec (errors dev) (- EPIPE)) as [Hp|Hp]; cbv zeta beta iota.
  - destruct (Z.ltb_spec (errors dev) 0) as [_|]; [|lia].
    unfold write_error. now rewrite Hup, Hp.
  - change (- EIO <? 0) with true. cbv iota.
    unfold write_error. now rewrite Hup.
Qed.

(** With a slot free and no error pending, the outcome is decided by the
    allocator, the disconnected bit and the host controller, in that
    order. *)
Lemma write_clear env dev data count :
  0 < limit_sem dev -> 0 <= errors dev ->
  frontpanel_write env dev data count =
  if negb (alloc_urb_ok env) then (- ENOMEM, dev) else
  if negb (alloc_coherent_ok env) then (- ENOMEM, dev) else
  if disconnected dev then (- ENODEV, dev) else
  if negb (submit_urb_ret env =? 0)
  then (submit_urb_ret env, dev_err (SubmitFailed (submit_urb_ret env)) dev)
  else (Z.min count PANEL_DATA_SIZE,
        usb_anchor_urb
          (Urb (firstn (Z.to_nat (Z.min count PANEL_DATA_SIZE)) data)
               (Z.min count PANEL_DATA_SIZE))
          (set_limit_sem (limit_sem dev - 1) dev)).
Proof.
  intros Hs He. unfold frontpanel_write.
  rewrite (down_trylock_taken dev Hs).
  unfold take_errors. simpl errors.
  destruct (Z.ltb_spec (errors dev) 0) as [|_]; [lia|].
  destruct (Z.ltb_spec (errors dev) 0) as [|_]; [lia|].
  unfold write_error.
  destruct (alloc_urb_ok env); simpl negb; cbv iota;
    [|now rewrite up_after_down].
  destruct (alloc_coherent_ok env); simpl negb; cbv iota;
    [|now rewrite up_after_down].
  simpl disconnected.
  destruct (disconnected dev); [now rewrite up_after_down|].
  destruct (submit_urb_ret env =? 0); simpl negb; cbv iota; [reflexivity|].
  f_equal.
  destruct dev; unfold up, usb_unanchor_urb, dev_err, usb_anchor_urb,
    set_submitted, set_limit_sem; simpl.
  rewrite removelast_last. f_equal; lia.
Qed.

Lemma write_accepted_spec env dev data count :
  write_accepted env dev = true ->
  frontpanel_write env dev data count =
  (Z.min count PANEL_DATA_SIZE,
   usb_anchor_urb
     (Urb (firstn (Z.to_nat (Z.min count PANEL_DATA_SIZE)) data)
          (Z.min count PANEL_DATA_SIZE))
     (set_limit_sem (limit_sem dev - 1) dev)).
Proof.
  unfold write_accepted. intros H.
  repeat (apply andb_prop in H; destruct H as [H ?]).
  apply Z.ltb_lt in H. apply Z.leb_le in H4.
  rewrite write_clear by assumption.
  rewrite H3, H2. simpl negb. cbv iota.
  destruct (disconnected dev); [discriminate|].
  rewrite H0. reflexivity.
Qed.

Lemma write_rejected_spec env dev data count :
  write_accepted env dev = false ->
  limit_sem (snd (frontpanel_write env dev data count)) = limit_sem dev /\
  submitted (snd (frontpanel_write env dev data count)) = submitted dev /\
  disconnected (snd (frontpanel_write env dev data count)) = disconnected dev.
Proof.
  unfold write_accepted. intros H.
  destruct (Z.ltb_spec 0 (limit_sem dev)) as [Hs|Hs].
  2:{ rewrite write_busy by assumption. auto. }
  destruct (Z.leb_spec 0 (errors dev)) as [He|He].
  2:{ rewrite write_latched by assumption. auto. }
  rewrite write_clear by assumption.
  destruct (alloc_urb_ok env); simpl negb; cbv iota; [|now auto].
  destruct (alloc_coherent_ok env); simpl negb; cbv iota; [|now auto].
  destruct (disconnected dev) eqn:Hd; [now auto|].
  simpl in H. rewrite H. simpl. auto.
Qed.

(** ** The completion callback *)

Lemma callback_limit_sem status dev :
  limit_sem (frontpanel_write_bulk_callback status dev) = limit_sem dev + 1.
Proof.
  unfold frontpanel_write_bulk_callback.
  destruct (status =? 0); simpl; [reflexivity|].
  destruct (benign status); reflexivity.
Qed.

Lemma callback_submitted status dev :
  submitted (frontpanel_write_bulk_callback status dev) = submitted dev.
Proof.
  unfold frontpanel_write_bulk_callback.
  destruct (status =? 0); simpl; [reflexivity|].
  destruct (benign status); reflexivity.
Qed.

Lemma callback_frame status dev :
  disconnected (frontpanel_write_bulk_callback status dev) = disconnected dev /\
  sniffer (frontpanel_write_bulk_callback status dev) = sniffer dev /\
  buffer (frontpanel_write_bulk_callback status dev) = buffer dev /\
  cpu (frontpanel_write_bulk_callback status dev) = cpu dev.
Proof.
  unfold frontpanel_write_bulk_callback.
  destruct (status =? 0); simpl; [auto|].
  destruct (benign status); simpl; auto.
Qed.

Lemma callback_errors status dev :
  status <> 0 ->
  errors (frontpanel_write_bulk_callback status dev) = status.
Proof.
  intros H. unfold frontpanel_write_bulk_callback.
  destruct (Z.eqb_spec status 0); [contradiction|]. reflexivity.
Qed.

Lemma benign_cases status :
  benign status = true ->
  status = - ENOENT \/ status = - ECONNRESET \/ status = - ESHUTDOWN.
Proof.
  unfold benign. intros H.
  apply orb_prop in H. destruct H as [H|H].
  - apply orb_prop in H. destruct H as [H|H]; apply Z.eqb_eq in H; auto.
  - apply Z.eqb_eq in H; auto.
Qed.

(** C1 (what the code does instead): the callback stores a benign
    status -- [-ENOENT], [-ECONNRESET] or [-ESHUTDOWN] -- in [errors] as
    it stores every non-zero status; the test on the three codes guards
    the log line only.  The next write finds the value and fails with
    [-EIO]. *)
Theorem C1_benign_status_is_latched (status : Z) (dev : usb_frontpanel)
    (env : write_env) (data : list Z) (count : Z) :
  benign status = true ->
  0 <= limit_sem dev ->
  errors (frontpanel_write_bulk_callback status dev) = status /\
  dmesg (frontpanel_write_bulk_callback status dev) = dmesg dev /\
  fst (frontpanel_write env (frontpanel_write_bulk_callback status dev)
         data count) = - EIO.
Proof.
  intros Hb Hs.
  assert (Hneg : status < 0 /\ status <> - EPIPE).
  { destruct (benign_cases _ Hb) as [->|[->| ->]]; split; discriminate || reflexivity. }
  destruct Hneg as [Hneg Hpipe].
  assert (He : errors (frontpanel_write_bulk_callback status dev) = status)
    by (apply callback_errors; lia).
  split; [exact He|]. split.
  - unfold frontpanel_write_bulk_callback. rewrite Hb.
    destruct (status =? 0); reflexivity.
  - rewrite write_latched.
    + rewrite He. unfold reported.
      destruct (Z.eqb_spec status (- EPIPE)); [contradiction|reflexivity].
    + rewrite callback_limit_sem. lia.
    + rewrite He. exact Hneg.
Qed.

Lemma C1_benign_status_is_latched_witness :
  benign (- ENOENT) = true /\
  0 <= limit_sem (set_limit_sem 7 probed) /\
  errors (frontpanel_write_bulk_callback (- ENOENT) (set_limit_sem 7 probed))
    = - ENOENT /\
  dmesg (frontpanel_write_bulk_callback (- ENOENT) (set_limit_sem 7 probed))
    = dmesg (set_limit_sem 7 probed) /\
  fst (frontpanel_write accepting
         (frontpanel_write_bulk_callback (- ENOENT) (set_limit_sem 7 probed))
         [1; 2; 3] 3) = - EIO.
Proof.
  split; [reflexivity|]. split; [simpl; lia|].
  apply (C1_benign_status_is_latched (- ENOENT) (set_limit_sem 7 probed)
           accepting [1; 2; 3] 3); [reflexivity | simpl; lia].
Defined.

(** C4: after a completion that failed with a non-benign error, the
    first write attempt returns the latched error -- [-EPIPE] as it is,
    any other code as [-EIO] -- and clears it; the second attempt reads
    an empty latch, and its outcome is decided by the later steps of the
    write path alone. *)
Theorem C4_error_reported_once (status : Z) (dev : usb_frontpanel)
    (env1 env2 : write_env) (data1 data2 : list Z) (count1 count2 : Z) :
  status < 0 ->
  benign status = false ->
  0 <= limit_sem dev ->
  let dev0 := frontpanel_write_bulk_callback status dev in
  let w1 := frontpanel_write env1 dev0 data1 count1 in
  let w2 := frontpanel_write env2 (snd w1) data2 count2 in
  fst w1 = (if status =? - EPIPE then - EPIPE else - EIO) /\
  take_errors (snd w1) = (0, snd w1) /\
  fst w2 =
    (if negb (alloc_urb_ok env2 && alloc_coherent_ok env2) then - ENOMEM
     else if disconnected dev then - ENODEV
     else if submit_urb_ret env2 =? 0 then Z.min count2 PANEL_DATA_SIZE
     else submit_urb_ret env2).
Proof.
  intros Hneg _ Hs dev0 w1 w2.
  assert (He : errors dev0 = status) by (apply callback_errors; lia).
  assert (Hl : limit_sem dev0 = limit_sem dev + 1) by apply callback_limit_sem.
  assert (Hw1 : w1 = (reported status, set_errors 0 dev0)).
  { unfold w1. rewrite write_latched by lia. now rewrite He. }
  split; [now rewrite Hw1|].
  split; [now rewrite Hw1|].
  unfold w2. rewrite Hw1. simpl snd.
  rewrite write_clear;
    [| change (0 < limit_sem dev0); lia | change (0 <= 0); lia].
  change (disconnected (set_errors 0 dev0))
    with (disconnected (frontpanel_write_bulk_callback status dev)).
  destruct (callback_frame status dev) as [-> _].
  destruct (alloc_urb_ok env2); simpl; [|reflexivity].
  destruct (alloc_coherent_ok env2); simpl; [|reflexivity].
  destruct (disconnected dev); [reflexivity|].
  destruct (submit_urb_ret env2 =? 0); reflexivity.
Qed.

Lemma C4_error_reported_once_witness :
  - EPIPE < 0 /\ benign (- EPIPE) = false /\
  0 <= limit_sem (set_limit_sem 7 probed) /\
  fst (frontpanel_write accepting
         (frontpanel_write_bulk_callback (- EPIPE) (set_limit_sem 7 probed))
         [1] 1) = - EPIPE /\
  fst (frontpanel_write accepting
         (snd (frontpanel_write accepting
                 (frontpanel_write_bulk_callback (- EPIPE)
                    (set_limit_sem 7 probed)) [1] 1))
         [2; 3] 2) = 2.
Proof.
  split; [reflexivity|]. split; [reflexivity|]. split; [simpl; lia|].
  pose proof (C4_error_reported_once (- EPIPE) (set_limit_sem 7 probed)
                accepting accepting [1] [2; 3] 1 2) as H.
  destruct H as (H1 & _ & H2); [reflexivity | reflexivity | simpl; lia |].
  split; [exact H1 | exact H2].
Defined.

(** C10: the transfer length is [min count 32].  An accepted call
    anchors one URB holding the first [min count 32] bytes of the payload
    and returns [min count 32]; a call that is not accepted hands nothing
    to the transport.  A longer payload is cut, not refused. *)
Theorem C10_write_truncates (env : write_env) (dev : usb_frontpanel)
    (data : list Z) (count : Z) :
  let writesize := Z.min count PANEL_DATA_SIZE in
  let buf := firstn (Z.to_nat writesize) data in
  let w := frontpanel_write env dev data count in
  writesize <= 32 /\ (length buf <= 32)%nat /\
  if write_accepted env dev
  then fst w = writesize /\ submitted (snd w) = submitted dev ++ [Urb buf writesize]
  else submitted (snd w) = submitted dev.
Proof.
  intros writesize buf w.
  split; [unfold writesize, PANEL_DATA_SIZE; lia|].
  split.
  { unfold buf. rewrite length_take.
    unfold writesize, PANEL_DATA_SIZE. lia. }
  destruct (write_accepted env dev) eqn:Ha.
  - unfold w. rewrite write_accepted_spec by assumption. auto.
  - apply write_rejected_spec; assumption.
Qed.

(** ** Slot accounting *)

Lemma write_slots env dev data count :
  slots (snd (frontpanel_write env dev data count)) = slots dev.
Proof.
  unfold slots.
  destruct (write_accepted env dev) eqn:Ha.
  - rewrite write_accepted_spec by assumption. simpl.
    rewrite length_app. simpl. lia.
  - destruct (write_rejected_spec env dev data count Ha) as (-> & -> & _).
    reflexivity.
Qed.

Lemma write_disconnected env dev data count :
  disconnected (snd (frontpanel_write env dev data count)) = disconnected dev.
Proof.
  destruct (write_accepted env dev) eqn:Ha.
  - rewrite write_accepted_spec by assumption. reflexivity.
  - now destruct (write_rejected_spec env dev data count Ha) as (_ & _ & ->).
Qed.

Lemma giveback_slots i status dev :
  slots (usb_hcd_giveback_urb i status dev) = slots dev.
Proof.
  unfold usb_hcd_giveback_urb, slots.
  destruct (submitted dev !! i) eqn:Hi; [|reflexivity].
  rewrite callback_limit_sem, callback_submitted. simpl.
  rewrite length_delete by (rewrite Hi; eauto).
  apply lookup_lt_Some in Hi. lia.
Qed.

Lemma giveback_frame i status dev :
  disconnected (usb_hcd_giveback_urb i status dev) = disconnected dev /\
  sniffer (usb_hcd_giveback_urb i status dev) = sniffer dev /\
  buffer (usb_hcd_giveback_urb i status dev) = buffer dev /\
  cpu (usb_hcd_giveback_urb i status dev) = cpu dev.
Proof.
  unfold usb_hcd_giveback_urb.
  destruct (submitted dev !! i); [|auto].
  apply (callback_frame status (set_submitted (delete i (submitted dev)) dev)).
Qed.

Lemma giveback_empty i status dev :
  submitted dev = [] -> usb_hcd_giveback_urb i status dev = dev.
Proof.
  intros H. unfold usb_hcd_giveback_urb. rewrite H. reflexivity.
Qed.

Lemma kill_urb_frame dev :
  disconnected (usb_kill_urb dev) = disconnected dev /\
  sniffer (usb_kill_urb dev) = sniffer dev /\
  buffer (usb_kill_urb dev) = buffer dev /\
  cpu (usb_kill_urb dev) = cpu dev.
Proof. apply (callback_frame (- ENOENT) (usb_unanchor_urb dev)). Qed.

Lemma kill_urbs_spec n : forall dev,
  n = length (submitted dev) ->
  submitted (kill_urbs n dev) = [] /\
  limit_sem (kill_urbs n dev) = slots dev /\
  disconnected (kill_urbs n dev) = disconnected dev /\
  sniffer (kill_urbs n dev) = sniffer dev /\
  buffer (kill_urbs n dev) = buffer dev /\
  cpu (kill_urbs n dev) = cpu dev.
Proof.
  induction n as [|n IH]; intros dev Hn.
  - simpl. unfold slots. rewrite <- Hn.
    destruct (submitted dev); [|discriminate].
    repeat split; simpl; lia.
  - simpl.
    assert (Hrl : length (submitted (usb_kill_urb dev)) = n).
    { unfold usb_kill_urb. rewrite callback_submitted. simpl.
      rewrite removelast_firstn_len, length_take. lia. }
    destruct (IH (usb_kill_urb dev) (eq_sym Hrl)) as (H1 & H2 & H3 & H4 & H5 & H6).
    destruct (kill_urb_frame dev) as (F1 & F2 & F3 & F4).
    rewrite H1, H2, H3, H4, H5, H6, F1, F2, F3, F4.
    repeat split.
    unfold slots. rewrite Hrl, <- Hn.
    unfold usb_kill_urb. rewrite callback_limit_sem. simpl. lia.
Qed.

Lemma kill_anchored_spec dev :
  submitted (usb_kill_anchored_urbs dev) = [] /\
  limit_sem (usb_kill_anchored_urbs dev) = slots dev /\
  disconnected (usb_kill_anchored_urbs dev) = disconnected dev /\
  sniffer (usb_kill_anchored_urbs dev) = sniffer dev /\
  buffer (usb_kill_anchored_urbs dev) = buffer dev /\
  cpu (usb_kill_anchored_urbs dev) = cpu dev.
Proof. apply kill_urbs_spec. reflexivity. Qed.

Lemma kill_anchored_slots dev : slots (usb_kill_anchored_urbs dev) = slots dev.
Proof.
  destruct (kill_anchored_spec dev) as (H1 & H2 & _).
  unfold slots at 1. rewrite H1, H2. simpl. lia.
Qed.

(** Waiting on the anchor: what it leaves is what the completions seen
    before the deadline leave, and the result is 0 exactly when the
    anchor is still populated. *)
Lemma wait_anchor_spec timeout arrivals : forall now dev,
  let w := wait_anchor_empty timeout now arrivals dev in
  slots (snd w) = slots dev /\
  disconnected (snd w) = disconnected dev /\
  sniffer (snd w) = sniffer dev /\
  buffer (snd w) = buffer dev /\
  cpu (snd w) = cpu dev /\
  (fst w = 0 <-> submitted (snd w) <> []).
Proof.
  induction arrivals as [|a rest IH]; intros now dev; simpl.
  - destruct (submitted dev) eqn:Hs; simpl; rewrite Hs;
      repeat split; try lia; congruence.
  - destruct (submitted dev) eqn:Hs.
    + simpl. rewrite Hs. repeat split; try lia; congruence.
    + destruct (Z.ltb_spec (at_ms a) timeout) as [Hlt|Hge].
      * set (dev1 := usb_hcd_giveback_urb (which a) (status a) dev).
        destruct (giveback_frame (which a) (status a) dev) as (F1 & F2 & F3 & F4).
        destruct (IH (Z.max now (at_ms a)) dev1) as (H1 & H2 & H3 & H4 & H5 & H6).
        fold dev1 in F1, F2, F3, F4.
        rewrite H1, H2, H3, H4, H5.
        unfold dev1 at 1. rewrite (giveback_slots (which a) (status a) dev).
        repeat split; try assumption; apply H6.
      * destruct (IH now dev) as (H1 & H2 & H3 & H4 & H5 & H6).
        repeat split; try assumption; apply H6.
Qed.

Lemma wait_anchor_drained timeout now arrivals dev :
  submitted dev = [] ->
  wait_anchor_empty timeout now arrivals dev = (Z.max 1 (timeout - now), dev).
Proof. intros Hs. destruct arrivals; simpl; rewrite Hs; reflexivity. Qed.

(** Completions due at or after the deadline play no part. *)
Lemma wait_anchor_deadline timeout arrivals : forall now dev,
  wait_anchor_empty timeout now
    (List.filter (fun a => at_ms a <? timeout) arrivals) dev
  = wait_anchor_empty timeout now arrivals dev.
Proof.
  induction arrivals as [|a rest IH]; intros now dev; [reflexivity|].
  destruct (submitted dev) eqn:Hs.
  { now rewrite !wait_anchor_drained. }
  simpl. destruct (at_ms a <? timeout) eqn:Hlt; simpl; rewrite Hs.
  - rewrite Hlt. apply IH.
  - apply IH.
Qed.

Lemma draw_down_spec arrivals dev :
  submitted (frontpanel_draw_down arrivals dev) = [] /\
  slots (frontpanel_draw_down arrivals dev) = slots dev /\
  disconnected (frontpanel_draw_down arrivals dev) = disconnected dev /\
  sniffer (frontpanel_draw_down arrivals dev) = sniffer dev /\
  buffer (frontpanel_draw_down arrivals dev) = buffer dev /\
  cpu (frontpanel_draw_down arrivals dev) = cpu dev.
Proof.
  unfold frontpanel_draw_down, usb_wait_anchor_empty_timeout.
  pose proof (wait_anchor_spec 1000 arrivals 0 dev) as H. cbv zeta in H.
  destruct (wait_anchor_empty 1000 0 arrivals dev) as [time dev1].
  simpl in H. destruct H as (H1 & H2 & H3 & H4 & H5 & H6).
  destruct (Z.eqb_spec time 0) as [Ht|Ht].
  - destruct (kill_anchored_spec dev1) as (K1 & K2 & K3 & K4 & K5 & K6).
    rewrite kill_anchored_slots. repeat split; congruence.
  - repeat split; try assumption.
    destruct (submitted dev1); [reflexivity|].
    exfalso. apply Ht, H6. discriminate.
Qed.

Lemma disconnect_spec dev :
  submitted (disconnect_quiesce dev) = [] /\
  slots (disconnect_quiesce dev) = slots dev /\
  disconnected (disconnect_quiesce dev) = true /\
  sniffer (disconnect_quiesce dev) = false.
Proof.
  unfold disconnect_quiesce.
  set (dev1 := set_disconnected true (rackmeter_stop_cpu_sniffer dev)).
  destruct (kill_anchored_spec dev1) as (K1 & K2 & K3 & K4 & _).
  rewrite kill_anchored_slots. repeat split; assumption.
Qed.

Lemma step_slots dev e : slots (step dev e) = slots dev.
Proof.
  destruct e; simpl.
  - apply write_slots.
  - apply giveback_slots.
  - apply draw_down_spec.
  - apply (draw_down_spec arrivals dev).
  - apply disconnect_spec.
Qed.

Lemma run_snoc dev es e : run dev (es ++ [e]) = step (run dev es) e.
Proof. apply foldl_snoc. Qed.

Lemma run_app dev es1 es2 : run dev (es1 ++ es2) = run (run dev es1) es2.
Proof. apply foldl_app. Qed.

Lemma run_slots es : forall dev, slots (run dev es) = slots dev.
Proof.
  induction es as [|e es IH]; intros dev; [reflexivity|].
  simpl. rewrite IH. apply step_slots.
Qed.

(** The state [frontpanel_probe] leaves does not depend on the cores
    that are online: [kzalloc] has cleared the samples already. *)
Lemma init_cpu_sniffer_probe l dev :
  cpu dev = replicate RACKMETER_CPUS (RackmeterCpu 0 0) ->
  foldl (fun dev c =>
           if (15 <? c)%nat then dev
           else set_cpu (<[c := RackmeterCpu 0 0]> (cpu dev)) dev) dev l = dev.
Proof.
  revert dev. induction l as [|c l IH]; intros dev Hc; [reflexivity|].
  simpl. destruct (Nat.ltb_spec 15 c) as [Hlt|Hle]; [now apply IH|].
  assert (Hid : <[c := RackmeterCpu 0 0]> (cpu dev) = cpu dev).
  { apply list_insert_id. rewrite Hc. apply lookup_replicate_2.
    unfold RACKMETER_CPUS. lia. }
  rewrite Hid.
  replace (set_cpu (cpu dev) dev) with dev by now destruct dev.
  now apply IH.
Qed.

Lemma probe_probed nr_cpu_ids cpu_online_mask :
  frontpanel_probe true 0 nr_cpu_ids cpu_online_mask = (0, Some probed).
Proof.
  unfold frontpanel_probe, rackmeter_init_cpu_sniffer. simpl negb. cbv iota.
  rewrite init_cpu_sniffer_probe by reflexivity. reflexivity.
Qed.

Lemma probed_slots : slots probed = WRITES_IN_FLIGHT.
Proof. reflexivity. Qed.

Lemma drained_slots (es : list event) :
  slots (run probed es) = WRITES_IN_FLIGHT /\
  (submitted (run probed es) = [] ->
   limit_sem (run probed es) = WRITES_IN_FLIGHT).
Proof.
  assert (Hinv : slots (run probed es) = WRITES_IN_FLIGHT)
    by (rewrite run_slots; apply probed_slots).
  split; [exact Hinv|].
  intros Hs. unfold slots in Hinv. rewrite Hs in Hinv. simpl in Hinv. lia.
Qed.

(** C8: slot conservation.  Along every history of a probed device the
    free slots and the operations in flight add up to the capacity, so a
    drained device has all its slots back.  A write that is not accepted
    leaves the count as it found it (the slot it took is returned before
    the call ends); an accepted write keeps its slot for the URB it
    anchors; the completion callback returns one slot; cancelling the
    anchored URBs returns one slot for each. *)
Theorem C8_slot_conservation (es : list event) :
  slots (run probed es) = WRITES_IN_FLIGHT /\
  (submitted (run probed es) = [] ->
   limit_sem (run probed es) = WRITES_IN_FLIGHT) /\
  (forall env dev data count,
     let w := frontpanel_write env dev data count in
     if write_accepted env dev
     then limit_sem (snd w) = limit_sem dev - 1 /\
          length (submitted (snd w)) = S (length (submitted dev))
     else limit_sem (snd w) = limit_sem dev /\
          submitted (snd w) = submitted dev) /\
  (forall status dev,
     limit_sem (frontpanel_write_bulk_callback status dev) = limit_sem dev + 1 /\
     submitted (frontpanel_write_bulk_callback status dev) = submitted dev) /\
  (forall dev,
     submitted (usb_kill_anchored_urbs dev) = [] /\
     limit_sem (usb_kill_anchored_urbs dev)
       = limit_sem dev + Z.of_nat (length (submitted dev))).
Proof.
  destruct (drained_slots es) as [Hinv Hdrained].
  split; [exact Hinv|]. split; [exact Hdrained|].
  split.
  { intros env dev data count w. unfold w.
    destruct (write_accepted env dev) eqn:Ha.
    - rewrite write_accepted_spec by assumption. simpl.
      rewrite length_app. simpl. split; [reflexivity|lia].
    - destruct (write_rejected_spec env dev data count Ha) as (H1 & H2 & _).
      auto. }
  split.
  { intros status dev. split;
      [apply callback_limit_sem | apply callback_submitted]. }
  intros dev. destruct (kill_anchored_spec dev) as (K1 & K2 & _). auto.
Qed.

Lemma run_accepted_writes calls : forall dev,
  0 <= errors dev -> disconnected dev = false ->
  Z.of_nat (length calls) <= limit_sem dev ->
  limit_sem (run dev (accepted_writes calls))
    = limit_sem dev - Z.of_nat (length calls) /\
  length (submitted (run dev (accepted_writes calls)))
    = (length (submitted dev) + length calls)%nat /\
  errors (run dev (accepted_writes calls)) = errors dev /\
  disconnected (run dev (accepted_writes calls)) = false.
Proof.
  induction calls as [|[data count] calls IH]; intros dev He Hd Hl.
  - simpl. repeat split; try lia. assumption.
  - simpl in Hl. simpl.
    assert (Ha : write_accepted accepting dev = true).
    { unfold write_accepted. rewrite Hd. simpl.
      rewrite !andb_true_r. apply andb_true_intro.
      split; [apply Z.ltb_lt | apply Z.leb_le]; lia. }
    rewrite write_accepted_spec by assumption. simpl snd.
    set (dev1 := usb_anchor_urb _ _).
    destruct (IH dev1) as (H1 & H2 & H3 & H4);
      [exact He | exact Hd | simpl; lia |].
    rewrite H1, H2, H3, H4. simpl.
    rewrite length_app. simpl. repeat split; lia.
Qed.

(** C5: on a freshly probed device, eight writes that are accepted with
    none completing each take a slot (the k-th finds [8 - k] free and
    leaves one fewer), and a ninth call, whatever it carries and whatever
    the environment would have answered, returns [-EAGAIN] at once and
    leaves the device as it was. *)
Theorem C5_ninth_write_would_block (calls : list (list Z * Z))
    (env : write_env) (data : list Z) (count : Z) :
  length calls = Z.to_nat WRITES_IN_FLIGHT ->
  (forall k, (k < length calls)%nat ->
     fst (down_trylock (run probed (accepted_writes (take k calls)))) = false /\
     limit_sem (run probed (accepted_writes (take (S k) calls)))
       = WRITES_IN_FLIGHT - Z.of_nat (S k)) /\
  limit_sem (run probed (accepted_writes calls)) = 0 /\
  length (submitted (run probed (accepted_writes calls))) = 8%nat /\
  frontpanel_write env (run probed (accepted_writes calls)) data count
    = (- EAGAIN, run probed (accepted_writes calls)).
Proof.
  intros Hlen.
  assert (Hpre : forall k, (k <= length calls)%nat ->
            limit_sem (run probed (accepted_writes (take k calls)))
              = WRITES_IN_FLIGHT - Z.of_nat k /\
            length (submitted (run probed (accepted_writes (take k calls)))) = k).
  { intros k Hk.
    destruct (run_accepted_writes (take k calls) probed) as (H1 & H2 & _).
    - simpl. lia.
    - reflexivity.
    - rewrite length_take. change (limit_sem probed) with 8.
      unfold WRITES_IN_FLIGHT in Hlen. lia.
    - rewrite H1, H2, length_take.
      change (limit_sem probed) with WRITES_IN_FLIGHT.
      change (length (submitted probed)) with 0%nat. split; lia. }
  split.
  { intros k Hk. split.
    - destruct (Hpre k) as [Hl _]; [lia|].
      rewrite down_trylock_taken; [reflexivity|].
      rewrite Hl, Hlen in *. unfold WRITES_IN_FLIGHT in *. lia.
    - destruct (Hpre (S k)) as [Hl _]; [lia|]. exact Hl. }
  destruct (Hpre (length calls)) as [Hl Hs]; [lia|].
  rewrite firstn_all in Hl, Hs.
  rewrite Hlen in Hl, Hs.
  split; [exact Hl|]. split; [exact Hs|].
  apply write_busy. rewrite Hl. simpl. lia.
Qed.

Lemma C5_ninth_write_would_block_witness :
  length (replicate 8 ([1; 2; 3], 3)) = Z.to_nat WRITES_IN_FLIGHT /\
  frontpanel_write accepting
    (run probed (accepted_writes (replicate 8 ([1; 2; 3], 3)))) [4] 1
  = (- EAGAIN, run probed (accepted_writes (replicate 8 ([1; 2; 3], 3)))).
Proof.
  split; [reflexivity|].
  apply (C5_ninth_write_would_block (replicate 8 ([1; 2; 3], 3))
           accepting [4] 1). reflexivity.
Defined.

(** C9: suspend waits on the anchor with a deadline of 1000 ms; a
    completion due at or after the deadline plays no part.  If the
    completions seen in time empty the anchor the device is left as they
    left it, otherwise the URBs still anchored are killed.  Either way
    the anchor ends empty, and neither the disconnected bit nor the
    pending state of the sampler changes. *)
Theorem C9_suspend_frame (arrivals : list arrival) (dev : usb_frontpanel) :
  let waited := snd (usb_wait_anchor_empty_timeout 1000 arrivals dev) in
  let dev' := frontpanel_draw_down arrivals dev in
  frontpanel_suspend arrivals (Some dev) = (0, Some dev') /\
  disconnected dev' = disconnected dev /\
  sniffer dev' = sniffer dev /\
  submitted dev' = [] /\
  dev' = match submitted waited with
         | [] => waited
         | _ :: _ => usb_kill_anchored_urbs waited
         end /\
  frontpanel_suspend (List.filter (fun a => at_ms a <? 1000) arrivals) (Some dev)
    = frontpanel_suspend arrivals (Some dev).
Proof.
  intros waited dev'.
  destruct (draw_down_spec arrivals dev) as (H1 & _ & H3 & H4 & _).
  split; [reflexivity|].
  split; [exact H3|]. split; [exact H4|]. split; [exact H1|].
  split.
  - unfold dev', waited, frontpanel_draw_down, usb_wait_anchor_empty_timeout.
    pose proof (wait_anchor_spec 1000 arrivals 0 dev) as H. cbv zeta in H.
    destruct (wait_anchor_empty 1000 0 arrivals dev) as [time dev1].
    simpl in H. simpl snd. destruct H as (_ & _ & _ & _ & _ & H6).
    destruct (Z.eqb_spec time 0) as [Ht|Ht].
    + destruct (submitted dev1); [|reflexivity].
      exfalso. now apply H6.
    + destruct (submitted dev1); [reflexivity|].
      exfalso. apply Ht, H6. discriminate.
  - unfold frontpanel_suspend, frontpanel_draw_down,
      usb_wait_anchor_empty_timeout.
    now rewrite wait_anchor_deadline.
Qed.

(** Two operations in flight that complete after 100 ms and 400 ms: no
    URB is killed and nothing is latched. *)
Example suspend_in_time :
  frontpanel_suspend [Arrival 100 0 0; Arrival 400 0 0]
    (Some (run probed [Write accepting [1] 1; Write accepting [2] 1]))
  = (0, Some probed).
Proof. reflexivity. Qed.

(** Two operations that never complete: both are killed at the deadline,
    and the status of the kill stays in [errors]. *)
Example suspend_deadline :
  frontpanel_suspend []
    (Some (run probed [Write accepting [1] 1; Write accepting [2] 1]))
  = (0, Some (set_errors (- ENOENT) probed)).
Proof. reflexivity. Qed.

(** ** Arithmetic of the sampler *)

Lemma to_s64_range z : - 2 ^ 63 <= to_s64 z < 2 ^ 63.
Proof.
  unfold to_s64.
  pose proof (Z.mod_pos_bound (z + 2 ^ 63) (2 ^ 64) eq_refl). lia.
Qed.

Lemma to_s64_small z : - 2 ^ 63 <= z < 2 ^ 63 -> to_s64 z = z.
Proof.
  intros H. unfold to_s64. rewrite Z.mod_small; lia.
Qed.

Lemma to_u64_s64 z : to_u64 (to_s64 z) = to_u64 z.
Proof.
  unfold to_u64, to_s64.
  rewrite Zminus_mod_idemp_l. f_equal. lia.
Qed.

Lemma to_u64_small z : 0 <= z < 2 ^ 64 -> to_u64 z = z.
Proof. intros H. unfold to_u64. apply Z.mod_small. exact H. Qed.

Lemma s64_diff_range cur prev : - 2 ^ 63 <= s64_diff cur prev < 2 ^ 63.
Proof. apply to_s64_range. Qed.

Lemma clamp_wall_ge diff_idle diff_wall :
  diff_idle <= clamp_wall diff_idle diff_wall /\
  diff_wall <= clamp_wall diff_idle diff_wall /\
  (clamp_wall diff_idle diff_wall = diff_idle \/
   clamp_wall diff_idle diff_wall = diff_wall).
Proof.
  unfold clamp_wall.
  destruct (Z.gtb_spec diff_idle diff_wall); lia.
Qed.

(** The load of a sample whose clamped wall time is positive. *)
Lemma rackmeter_load_value diff_idle diff_wall :
  - 2 ^ 63 <= diff_wall < 2 ^ 63 ->
  0 <= diff_idle < 2 ^ 63 ->
  clamp_wall diff_idle diff_wall <> 0 ->
  exists load,
    rackmeter_load diff_idle diff_wall = Ok load /\
    load = (255 * (clamp_wall diff_idle diff_wall - diff_idle)) mod 2 ^ 64
           / clamp_wall diff_idle diff_wall /\
    0 <= load <= 255.
Proof.
  intros Hw Hi Hnz.
  destruct (clamp_wall_ge diff_idle diff_wall) as (Hge1 & Hge2 & Hcase).
  set (w := clamp_wall diff_idle diff_wall) in *.
  assert (Hwr : 0 < w < 2 ^ 63) by lia.
  set (d := (255 * (w - diff_idle)) mod 2 ^ 64).
  assert (Hd : 0 <= d <= 255 * (w - diff_idle)).
  { unfold d. split.
    - apply Z.mod_pos_bound. reflexivity.
    - apply Z.mod_le; [lia | reflexivity]. }
  assert (Hq : 0 <= d / w <= 255).
  { split.
    - apply Z.div_pos; lia.
    - apply Z.div_le_upper_bound; lia. }
  exists (d / w). split; [|split; [reflexivity | exact Hq]].
  unfold rackmeter_load. fold w.
  rewrite (to_s64_small (w - diff_idle)) by lia.
  rewrite to_u64_s64.
  rewrite (to_u64_small w) by lia.
  unfold div64_u64.
  destruct (Z.eqb_spec w 0) as [|_]; [lia|].
  simpl bind. fold d. f_equal.
  unfold to_u32. apply Z.mod_small. lia.
Qed.

(** C7: for a sample with [diff_idle >= 0] whose wall difference is not
    zero after the clamp, the load is computed, lies in [0, 255] and is
    the byte stored in the channel; when [diff_idle > diff_wall] the
    clamp makes the wall difference equal to [diff_idle] and the load is
    0. *)
Theorem C7_load_in_range (cpu_idle cpu_wall : Z) (rcpu : rackmeter_cpu) :
  let diff_idle := s64_diff cpu_idle (prev_idle rcpu) in
  let diff_wall := s64_diff cpu_wall (prev_wall rcpu) in
  0 <= diff_idle ->
  clamp_wall diff_idle diff_wall <> 0 ->
  exists load,
    rackmeter_load diff_idle diff_wall = Ok load /\
    0 <= load <= 255 /\
    to_u8 load = load /\
    (diff_idle > diff_wall ->
     clamp_wall diff_idle diff_wall = diff_idle /\ load = 0).
Proof.
  intros diff_idle diff_wall Hi Hnz.
  pose proof (s64_diff_range cpu_idle (prev_idle rcpu)) as Hri.
  pose proof (s64_diff_range cpu_wall (prev_wall rcpu)) as Hrw.
  fold diff_idle in Hri. fold diff_wall in Hrw.
  destruct (rackmeter_load_value diff_idle diff_wall) as (load & Hl & Hv & Hr);
    [lia | lia | exact Hnz |].
  exists load. split; [exact Hl|]. split; [exact Hr|]. split.
  { unfold to_u8. apply Z.mod_small. lia. }
  intros Hgt.
  assert (Hc : clamp_wall diff_idle diff_wall = diff_idle).
  { unfold clamp_wall. destruct (Z.gtb_spec diff_idle diff_wall); lia. }
  split; [exact Hc|].
  rewrite Hv, Hc. replace (diff_idle - diff_idle) with 0 by lia.
  reflexivity.
Qed.

Lemma C7_load_in_range_witness :
  0 <= s64_diff 300 (prev_idle (RackmeterCpu 0 0)) /\
  clamp_wall (s64_diff 300 (prev_idle (RackmeterCpu 0 0)))
             (s64_diff 250 (prev_wall (RackmeterCpu 0 0))) <> 0 /\
  exists load,
    rackmeter_load (s64_diff 300 (prev_idle (RackmeterCpu 0 0)))
                   (s64_diff 250 (prev_wall (RackmeterCpu 0 0))) = Ok load /\
    0 <= load <= 255 /\
    to_u8 load = load /\
    (s64_diff 300 (prev_idle (RackmeterCpu 0 0))
       > s64_diff 250 (prev_wall (RackmeterCpu 0 0)) ->
     clamp_wall (s64_diff 300 (prev_idle (RackmeterCpu 0 0)))
                (s64_diff 250 (prev_wall (RackmeterCpu 0 0)))
       = s64_diff 300 (prev_idle (RackmeterCpu 0 0)) /\ load = 0).
Proof.
  split; [vm_compute; discriminate|]. split; [vm_compute; discriminate|].
  apply (C7_load_in_range 300 250 (RackmeterCpu 0 0));
    vm_compute; discriminate.
Defined.

(** A busy core: 100 idle out of 400 gives 191 = 255 * 300 / 400. *)
Example load_three_quarters : rackmeter_load 100 400 = Ok 191.
Proof. reflexivity. Qed.

(** ** The sampler cycle *)

Lemma core_load_ext get dev1 dev2 c :
  cpu dev1 !! c = cpu dev2 !! c -> core_load get dev1 c = core_load get dev2 c.
Proof. intros H. unfold core_load. now rewrite H. Qed.

Lemma do_timer_cpu_skip get dev updated c :
  (15 < c)%nat -> do_timer_cpu get (dev, updated) c = Ok (dev, updated).
Proof.
  intros H. unfold do_timer_cpu.
  destruct (Nat.ltb_spec 15 c); [reflexivity | lia].
Qed.

Lemma do_timer_cpu_oops get dev updated c :
  (c <= 15)%nat -> core_load get dev c = Oops ->
  do_timer_cpu get (dev, updated) c = Oops.
Proof.
  intros Hc Hl. unfold do_timer_cpu, core_load in *.
  destruct (Nat.ltb_spec 15 c); [lia|].
  destruct (get c) as [cpu_idle cpu_wall]. simpl in Hl.
  now rewrite Hl.
Qed.

(** What one iteration that returns leaves. *)
Lemma do_timer_cpu_ok get dev updated c dev1 updated1 :
  (16 <= length (buffer dev))%nat ->
  do_timer_cpu get (dev, updated) c = Ok (dev1, updated1) ->
  limit_sem dev1 = limit_sem dev /\ submitted dev1 = submitted dev /\
  errors dev1 = errors dev /\ disconnected dev1 = disconnected dev /\
  sniffer dev1 = sniffer dev /\ dmesg dev1 = dmesg dev /\
  length (buffer dev1) = length (buffer dev) /\
  (forall j, j <> c ->
     buffer dev1 !! j = buffer dev !! j /\ cpu dev1 !! j = cpu dev !! j) /\
  ((buffer dev1 = buffer dev /\ updated1 = updated) \/
   (buffer dev1 !! c <> buffer dev !! c /\ updated1 = true)).
Proof.
  intros Hlen. unfold do_timer_cpu.
  destruct (Nat.ltb_spec 15 c) as [Hc|Hc].
  { intros [= <- <-]. repeat split; auto. }
  destruct (get c) as [cpu_idle cpu_wall].
  destruct (rackmeter_load _ _) as [load|]; [|discriminate].
  simpl bind.
  destruct (Z.eqb_spec (default 0 (buffer dev !! c)) (to_u8 load)) as [He|He];
    simpl negb; cbv iota; intros [= <- <-]; simpl.
  - repeat split; auto.
    now rewrite list_lookup_insert_ne by congruence.
  - rewrite length_insert. repeat split; auto.
    + now rewrite list_lookup_insert_ne by congruence.
    + now rewrite list_lookup_insert_ne by congruence.
    + right. split; [|reflexivity].
      rewrite list_lookup_insert_eq by lia.
      destruct (buffer dev !! c) as [x|] eqn:Hx; [|discriminate].
      simpl in He. congruence.
Qed.

Section Cycle.
Variable get_cpu_idle_time : nat -> Z * Z.

Let body := do_timer_cpu get_cpu_idle_time.

(** A core whose load faults makes the loop fault, wherever it stands
    among the online cores. *)
Lemma loop_oops (l : list nat) : forall dev updated c,
  NoDup l -> In c l -> (c <= 15)%nat ->
  core_load get_cpu_idle_time dev c = Oops ->
  foldM body (dev, updated) l = Oops.
Proof using Type.
  induction l as [|a l IH]; intros dev updated c Hnd Hin Hc Hl;
    [destruct Hin|].
  apply NoDup_cons in Hnd. destruct Hnd as [Hna Hnd].
  cbn [foldM]. unfold body at 1.
  destruct Hin as [->|Hin].
  { now rewrite do_timer_cpu_oops. }
  destruct (do_timer_cpu get_cpu_idle_time (dev, updated) a)
    as [[dev1 updated1]|] eqn:Hstep; [|reflexivity].
  simpl bind. apply (IH dev1 updated1 c); try assumption.
  rewrite <- Hl. apply core_load_ext.
  assert (Hne : c <> a).
  { intros ->. apply Hna. now apply list_elem_of_In. }
  destruct (Nat.ltb_spec 15 a) as [Ha|Ha].
  - rewrite do_timer_cpu_skip in Hstep by assumption.
    now inversion Hstep.
  - unfold do_timer_cpu in Hstep.
    destruct (Nat.ltb_spec 15 a); [lia|].
    destruct (get_cpu_idle_time a) as [cpu_idle cpu_wall].
    destruct (rackmeter_load _ _); [|discriminate].
    simpl bind in Hstep.
    destruct (negb _); inversion Hstep; subst; simpl;
      now rewrite list_lookup_insert_ne by congruence.
Qed.

(** The loop over distinct cores, when it returns: only [buffer] and
    [cpu] change, only at the cores visited, and [updated] is raised
    exactly when some byte of [buffer] changed. *)
Lemma loop_ok (l : list nat) : forall dev updated dev' updated',
  NoDup l -> (16 <= length (buffer dev))%nat ->
  foldM body (dev, updated) l = Ok (dev', updated') ->
  limit_sem dev' = limit_sem dev /\ submitted dev' = submitted dev /\
  errors dev' = errors dev /\ disconnected dev' = disconnected dev /\
  sniffer dev' = sniffer dev /\ dmesg dev' = dmesg dev /\
  length (buffer dev') = length (buffer dev) /\
  (forall j, ~ In j l ->
     buffer dev' !! j = buffer dev !! j /\ cpu dev' !! j = cpu dev !! j) /\
  (updated' = true <-> updated = true \/ buffer dev' <> buffer dev).
Proof using Type.
  induction l as [|a l IH]; intros dev updated dev' updated' Hnd Hlen.
  { simpl. intros [= <- <-]. repeat split; auto.
    intros [H|H]; [assumption | contradiction]. }
  apply NoDup_cons in Hnd. destruct Hnd as [Hna Hnd].
  cbn [foldM]. unfold body at 1.
  destruct (do_timer_cpu get_cpu_idle_time (dev, updated) a)
    as [[dev1 updated1]|] eqn:Hstep; [|discriminate].
  simpl bind. intros Hrest.
  destruct (do_timer_cpu_ok _ _ _ _ _ _ Hlen Hstep)
    as (S1 & S2 & S3 & S4 & S5 & S6 & S7 & S8 & S9).
  destruct (IH dev1 updated1 dev' updated' Hnd ltac:(lia) Hrest)
    as (R1 & R2 & R3 & R4 & R5 & R6 & R7 & R8 & R9).
  assert (Ha : ~ In a l) by (intros H; apply Hna; now apply list_elem_of_In).
  assert (Hout : forall j, ~ In j (a :: l) ->
            buffer dev' !! j = buffer dev !! j /\
            cpu dev' !! j = cpu dev !! j).
  { intros j Hj.
    assert (Hjl : ~ In j l) by (intros H; apply Hj; now right).
    assert (Hja : j <> a) by (intros H; apply Hj; now left).
    destruct (R8 j Hjl) as [-> ->]. now apply S8. }
  repeat split; try congruence; try (now apply Hout).
  - intros Hu. apply R9 in Hu.
    destruct S9 as [[Sb Su]|[Sb Su]].
    + rewrite Sb, Su in Hu. exact Hu.
    + right. intros Heq. apply Sb.
      destruct (R8 a Ha) as [<- _]. now rewrite Heq.
  - intros Hu. apply R9.
    destruct S9 as [[Sb Su]|[Sb Su]].
    + rewrite Sb, Su. exact Hu.
    + left. exact Su.
Qed.

(** The loop returns when no core visited has a zero wall difference
    after the clamp. *)
Lemma loop_total (l : list nat) : forall dev updated,
  NoDup l ->
  (forall c, In c l -> (c <= 15)%nat ->
     core_load get_cpu_idle_time dev c <> Oops) ->
  exists st, foldM body (dev, updated) l = Ok st.
Proof using Type.
  induction l as [|a l IH]; intros dev updated Hnd Hok.
  { simpl. eauto. }
  apply NoDup_cons in Hnd. destruct Hnd as [Hna Hnd].
  assert (Ha : ~ In a l) by (intros H; apply Hna; now apply list_elem_of_In).
  cbn [foldM]. unfold body at 1.
  destruct (do_timer_cpu get_cpu_idle_time (dev, updated) a)
    as [[dev1 updated1]|] eqn:Hstep.
  - simpl bind. apply IH; [assumption|].
    intros c Hin Hc.
    assert (Hcpu : cpu dev1 !! c = cpu dev !! c).
    { assert (Hne : c <> a) by (intros ->; tauto).
      unfold do_timer_cpu in Hstep.
      destruct (15 <? a)%nat; [now inversion Hstep|].
      destruct (get_cpu_idle_time a) as [cpu_idle cpu_wall].
      destruct (rackmeter_load _ _); [|discriminate].
      simpl bind in Hstep.
      destruct (negb _); inversion Hstep; subst; simpl;
        now rewrite list_lookup_insert_ne by congruence. }
    rewrite (core_load_ext _ _ _ _ Hcpu). apply Hok; [now right | assumption].
  - exfalso.
    destruct (Nat.ltb_spec 15 a) as [H15|H15].
    + rewrite do_timer_cpu_skip in Hstep by assumption. discriminate.
    + apply (Hok a); [now left | assumption |].
      unfold do_timer_cpu, core_load in *.
      destruct (Nat.ltb_spec 15 a); [lia|].
      destruct (get_cpu_idle_time a) as [cpu_idle cpu_wall]. simpl.
      destruct (rackmeter_load _ _); [|reflexivity].
      simpl bind in Hstep. destruct (negb _) in Hstep; discriminate.
Qed.
End Cycle.

Lemma online_cpus_NoDup nr_cpu_ids cpu_online_mask :
  NoDup (online_cpus nr_cpu_ids cpu_online_mask).
Proof.
  unfold online_cpus.
  apply NoDup_ListNoDup, List.NoDup_filter, NoDup_ListNoDup, NoDup_seq.
Qed.

Lemma write_buffer env dev data count :
  buffer (snd (frontpanel_write env dev data count)) = buffer dev.
Proof.
  destruct (Z.ltb_spec 0 (limit_sem dev)) as [Hs|Hs].
  2:{ now rewrite write_busy. }
  destruct (Z.leb_spec 0 (errors dev)) as [He|He].
  2:{ now rewrite write_latched. }
  rewrite write_clear by assumption.
  destruct (alloc_urb_ok env); simpl negb; cbv iota; [|reflexivity].
  destruct (alloc_coherent_ok env); simpl negb; cbv iota; [|reflexivity].
  destruct (disconnected dev); [reflexivity|].
  destruct (negb _); reflexivity.
Qed.

(** C2 (what the code does instead): nothing guards the division.  When
    an online core below 16 shows no wall time since the previous cycle
    and no idle time either, the clamp leaves the divisor at 0 and
    [div64_u64] faults: the cycle does not skip the core, it does not
    return. *)
Theorem C2_zero_wall_divides_by_zero (nr_cpu_ids : nat) (cpu_online_mask : Z)
    (get_cpu_idle_time : nat -> Z * Z) (env : write_env)
    (dev : usb_frontpanel) (c : nat) :
  In c (online_cpus nr_cpu_ids cpu_online_mask) ->
  (c <= 15)%nat ->
  let rcpu := default (RackmeterCpu 0 0) (cpu dev !! c) in
  s64_diff (snd (get_cpu_idle_time c)) (prev_wall rcpu) = 0 ->
  s64_diff (fst (get_cpu_idle_time c)) (prev_idle rcpu) <= 0 ->
  rackmeter_do_timer nr_cpu_ids cpu_online_mask get_cpu_idle_time env dev
    = Oops.
Proof.
  intros Hin Hc rcpu Hw Hi.
  unfold rackmeter_do_timer.
  rewrite (loop_oops get_cpu_idle_time _ dev false c);
    [reflexivity | apply online_cpus_NoDup | assumption | assumption |].
  unfold core_load. fold rcpu. rewrite Hw.
  unfold rackmeter_load, clamp_wall.
  destruct (Z.gtb_spec (s64_diff (fst (get_cpu_idle_time c)) (prev_idle rcpu)) 0);
    [lia|].
  reflexivity.
Qed.

Lemma C2_zero_wall_divides_by_zero_witness :
  In 0%nat (online_cpus 1 1) /\ (0 <= 15)%nat /\
  s64_diff 0 (prev_wall (default (RackmeterCpu 0 0) (cpu probed !! 0%nat))) = 0 /\
  s64_diff 0 (prev_idle (default (RackmeterCpu 0 0) (cpu probed !! 0%nat))) <= 0 /\
  rackmeter_do_timer 1 1 (fun _ => (0, 0)) accepting probed = Oops.
Proof.
  split; [now left|]. split; [lia|].
  split; [reflexivity|]. split; [vm_compute; discriminate|].
  apply (C2_zero_wall_divides_by_zero 1 1 (fun _ => (0, 0)) accepting probed
           0%nat); [now left | lia | reflexivity | vm_compute; discriminate].
Defined.

(** A core whose wall time stood still while its idle time advanced is
    not skipped either: the clamp gives a load of 0, which is stored. *)
Example zero_wall_positive_idle :
  rackmeter_load 40 0 = Ok 0 /\
  rackmeter_do_timer 1 1 (fun _ => (40, 0)) accepting
    (set_buffer (<[0%nat := 7]> (buffer probed)) probed)
  = Ok (snd (frontpanel_write accepting
               (set_cpu (<[0%nat := RackmeterCpu 0 40]> (cpu probed)) probed)
               (buffer probed) PANEL_DATA_SIZE),
        [WriteCall (buffer probed) PANEL_DATA_SIZE 32]).
Proof. split; reflexivity. Qed.

(** What a cycle that returns has done. *)
Lemma do_timer_returns nr_cpu_ids cpu_online_mask get_cpu_idle_time env dev
    dev' calls :
  length (buffer dev) = Z.to_nat PANEL_DATA_SIZE ->
  rackmeter_do_timer nr_cpu_ids cpu_online_mask get_cpu_idle_time env dev
    = Ok (dev', calls) ->
  length (buffer dev') = Z.to_nat PANEL_DATA_SIZE /\
  sniffer dev' = true /\
  slots dev' = slots dev /\
  (buffer dev' = buffer dev -> calls = [] /\ dmesg dev' = dmesg dev) /\
  (buffer dev' <> buffer dev ->
   exists ret,
     calls = [WriteCall (buffer dev') PANEL_DATA_SIZE ret] /\
     (ret <= 0 -> exists log, dmesg dev' = log ++ [WriteFailed ret])).
Proof.
  intros Hlen. unfold rackmeter_do_timer.
  destruct (foldM _ _ _) as [[dev1 updated]|] eqn:Hloop; [|discriminate].
  assert (H16 : (16 <= length (buffer dev))%nat)
    by (rewrite Hlen; unfold PANEL_DATA_SIZE; lia).
  destruct (loop_ok get_cpu_idle_time _ _ _ _ _
              (online_cpus_NoDup nr_cpu_ids cpu_online_mask) H16 Hloop)
    as (L1 & L2 & _ & _ & _ & L6 & L7 & _ & L9).
  assert (Hsl : slots dev1 = slots dev) by (unfold slots; now rewrite L1, L2).
  simpl bind. destruct updated.
  - assert (Hch : buffer dev1 <> buffer dev).
    { destruct L9 as [L9 _]. destruct (L9 eq_refl); [discriminate|assumption]. }
    pose proof (write_buffer env dev1 (buffer dev1) PANEL_DATA_SIZE) as Hwb.
    pose proof (write_slots env dev1 (buffer dev1) PANEL_DATA_SIZE) as Hws.
    destruct (frontpanel_write env dev1 (buffer dev1) PANEL_DATA_SIZE)
      as [ret dev2]. simpl in Hwb, Hws.
    intros [= <- <-].
    assert (Hb : buffer (set_sniffer true
                   (if ret <=? 0 then dev_err (WriteFailed ret) dev2 else dev2))
                 = buffer dev1).
    { destruct (ret <=? 0); simpl; exact Hwb. }
    rewrite Hb. split; [congruence|]. split; [reflexivity|].
    split. { rewrite <- Hsl, <- Hws. now destruct (ret <=? 0). }
    split; [intros Heq; contradiction|].
    intros _. exists ret. split; [reflexivity|].
    intros Hret. destruct (Z.leb_spec ret 0); [|lia].
    exists (dmesg dev2). reflexivity.
  - assert (Hsame : buffer dev1 = buffer dev).
    { destruct (decide (buffer dev1 = buffer dev)) as [|Hne];
        [assumption|].
      destruct L9 as [_ L9]. discriminate L9. now right. }
    intros [= <- <-]. simpl.
    split; [congruence|]. split; [reflexivity|].
    split; [exact Hsl|].
    split; [auto|]. intros Hne. contradiction.
Qed.

(** A cycle returns when no core it visits has a zero wall difference
    after the clamp. *)
Lemma do_timer_total nr_cpu_ids cpu_online_mask get_cpu_idle_time env dev :
  (forall c, In c (online_cpus nr_cpu_ids cpu_online_mask) -> (c <= 15)%nat ->
     core_load get_cpu_idle_time dev c <> Oops) ->
  exists r,
    rackmeter_do_timer nr_cpu_ids cpu_online_mask get_cpu_idle_time env dev
      = Ok r.
Proof.
  intros Hok.
  destruct (loop_total get_cpu_idle_time _ dev false
              (online_cpus_NoDup nr_cpu_ids cpu_online_mask) Hok)
    as [[dev1 updated] Hloop].
  unfold rackmeter_do_timer. rewrite Hloop. simpl bind.
  destruct updated; [|eauto].
  destruct (frontpanel_write env dev1 (buffer dev1) PANEL_DATA_SIZE). eauto.
Qed.

(** The buffer a cycle starts from is the payload last handed to
    [frontpanel_write]: on a probed device both start as 32 zero bytes,
    and a cycle changes the buffer only when it also makes the call. *)
Lemma buffer_is_last_payload nr_cpu_ids cpu_online_mask inputs :
  forall dev emitted dev' emitted',
  length (buffer dev) = Z.to_nat PANEL_DATA_SIZE ->
  emitted = buffer dev ->
  sampler_cycles nr_cpu_ids cpu_online_mask inputs dev emitted
    = Ok (dev', emitted') ->
  emitted' = buffer dev'.
Proof.
  induction inputs as [|[get env] rest IH]; intros dev emitted dev' emitted' Hlen He.
  { simpl. intros [= <- <-]. exact He. }
  cbn [sampler_cycles fst snd].
  destruct (rackmeter_do_timer _ _ _ _ _) as [[dev1 calls]|] eqn:Hcycle;
    [|discriminate].
  simpl bind. cbn [fst snd].
  destruct (do_timer_returns _ _ _ _ _ _ _ Hlen Hcycle)
    as (R1 & _ & _ & R4 & R5).
  apply IH; [exact R1|].
  destruct (decide (buffer dev1 = buffer dev)) as [Heq|Hne].
  - destruct (R4 Heq) as [-> _]. simpl. congruence.
  - destruct (R5 Hne) as (ret & -> & _). reflexivity.
Qed.

(** C6 (amended): in a cycle that returns, [frontpanel_write] is called
    exactly when some byte of the payload buffer differs from what the
    previous cycle left there, which is the payload last handed to
    [frontpanel_write], accepted or not; it is then called once, on the
    whole new buffer with [PANEL_DATA_SIZE] as its length, and whatever
    it returns -- a non-positive value is logged -- the cycle makes no
    second call.  The work is queued again in both cases.  The cycle
    returns whenever no online core below 16 has a zero wall difference
    after the clamp. *)
Theorem C6_one_write_iff_changed (nr_cpu_ids : nat) (cpu_online_mask : Z)
    (get_cpu_idle_time : nat -> Z * Z) (env : write_env)
    (dev : usb_frontpanel) :
  length (buffer dev) = Z.to_nat PANEL_DATA_SIZE ->
  (forall c, In c (online_cpus nr_cpu_ids cpu_online_mask) -> (c <= 15)%nat ->
     core_load get_cpu_idle_time dev c <> Oops) ->
  exists dev' calls,
    rackmeter_do_timer nr_cpu_ids cpu_online_mask get_cpu_idle_time env dev
      = Ok (dev', calls) /\
    length (buffer dev') = Z.to_nat PANEL_DATA_SIZE /\
    sniffer dev' = true /\
    (buffer dev' = buffer dev -> calls = [] /\ dmesg dev' = dmesg dev) /\
    (buffer dev' <> buffer dev ->
     exists ret,
       calls = [WriteCall (buffer dev') PANEL_DATA_SIZE ret] /\
       (ret <= 0 -> exists log, dmesg dev' = log ++ [WriteFailed ret])).
Proof.
  intros Hlen Hok.
  destruct (do_timer_total nr_cpu_ids cpu_online_mask get_cpu_idle_time env
              dev Hok) as [[dev' calls] Hcycle].
  exists dev', calls. split; [exact Hcycle|].
  destruct (do_timer_returns _ _ _ _ _ _ _ Hlen Hcycle)
    as (R1 & R2 & _ & R4 & R5).
  auto.
Qed.

Lemma C6_one_write_iff_changed_witness :
  length (buffer probed) = Z.to_nat PANEL_DATA_SIZE /\
  (forall c, In c (online_cpus 2 3) -> (c <= 15)%nat ->
     core_load (fun _ => (100, 400)) probed c <> Oops) /\
  exists dev' calls,
    rackmeter_do_timer 2 3 (fun _ => (100, 400)) accepting probed
      = Ok (dev', calls) /\
    length (buffer dev') = Z.to_nat PANEL_DATA_SIZE /\
    sniffer dev' = true /\
    (buffer dev' = buffer probed -> calls = [] /\ dmesg dev' = dmesg probed) /\
    (buffer dev' <> buffer probed ->
     exists ret,
       calls = [WriteCall (buffer dev') PANEL_DATA_SIZE ret] /\
       (ret <= 0 -> exists log, dmesg dev' = log ++ [WriteFailed ret])).
Proof.
  assert (Hok : forall c, In c (online_cpus 2 3) -> (c <= 15)%nat ->
            core_load (fun _ => (100, 400)) probed c <> Oops).
  { intros c [<-|[<-|[]]] _; discriminate. }
  split; [reflexivity|]. split; [exact Hok|].
  apply (C6_one_write_iff_changed 2 3 (fun _ => (100, 400)) accepting probed);
    [reflexivity | exact Hok].
Defined.

(** C6 as stated fails once a write has been refused.  The first cycle
    emits the loads 191, 191; the second computes 127, 127 and its write
    is refused for lack of memory, so the panel still shows the first
    payload while the buffer holds the second.  A third cycle that
    computes 127, 127 again calls nothing although the buffer differs
    from the last emitted payload; one that computes 191, 191 calls
    [frontpanel_write] although the buffer equals it. *)
Lemma C6_counterexample :
  match rackmeter_do_timer 2 3 (fun _ => (100, 400)) accepting probed with
  | Ok (dev1, calls1) =>
      match rackmeter_do_timer 2 3 (fun _ => (200, 600))
              (WriteEnv true false 0) dev1 with
      | Ok (dev2, calls2) =>
          let emitted := last_emitted (calls1 ++ calls2) (buffer probed) in
          match rackmeter_do_timer 2 3 (fun _ => (300, 800)) accepting dev2,
                rackmeter_do_timer 2 3 (fun _ => (300, 1000)) accepting dev2
          with
          | Ok (same, calls_same), Ok (back, calls_back) =>
              map wc_ret calls1 = [32] /\ map wc_ret calls2 = [- ENOMEM] /\
              (calls_same = [] /\ buffer same <> emitted) /\
              (length calls_back = 1%nat /\ buffer back = emitted)
          | _, _ => False
          end
      | Oops => False
      end
  | Oops => False
  end.
Proof.
  vm_compute. repeat split; discriminate.
Qed.

(** The scenario of the payload [10, 10, 0, ...]: a cycle that computes
    the same two bytes calls nothing; with the first byte moving to 11 it
    calls [frontpanel_write] once with the new payload. *)
Example unchanged_payload_no_write :
  let dev := set_buffer (<[1%nat := 10]> (<[0%nat := 10]> (buffer probed)))
               probed in
  exists dev',
    rackmeter_do_timer 2 3 (fun _ => (245, 255)) accepting dev = Ok (dev', []) /\
    buffer dev' = buffer dev.
Proof. eexists. split; reflexivity. Qed.

Example changed_payload_one_write :
  let dev := set_buffer (<[1%nat := 10]> (<[0%nat := 10]> (buffer probed)))
               probed in
  exists dev',
    rackmeter_do_timer 2 3 (fun c => if (c =? 0)%nat then (244, 255) else (245, 255))
      accepting dev
    = Ok (dev', [WriteCall (<[0%nat := 11]> (buffer dev)) PANEL_DATA_SIZE 32]).
Proof. eexists. reflexivity. Qed.

(** * Further properties of the driver *)

(** ** Writes and completions *)

Lemma delete_last_app {A : Type} (l : list A) (x : A) :
  delete (length l) (l ++ [x]) = l.
Proof. induction l as [|a l IH]; simpl; [reflexivity | now rewrite IH]. Qed.

Lemma lookup_last_app {A : Type} (l : list A) (x : A) :
  (l ++ [x]) !! length l = Some x.
Proof. induction l as [|a l IH]; simpl; [reflexivity | exact IH]. Qed.

(** X1: an accepted write followed by the successful completion of the
    URB it anchored leaves the device exactly as it was before the
    write. *)
Theorem X1_write_then_completion (env : write_env) (dev : usb_frontpanel)
    (data : list Z) (count : Z) :
  write_accepted env dev = true ->
  usb_hcd_giveback_urb (length (submitted dev)) 0
    (snd (frontpanel_write env dev data count)) = dev.
Proof.
  intros Ha. rewrite write_accepted_spec by assumption. simpl snd.
  unfold usb_hcd_giveback_urb, usb_anchor_urb. simpl submitted.
  rewrite lookup_last_app, delete_last_app.
  destruct dev; unfold frontpanel_write_bulk_callback, up, set_submitted,
    set_limit_sem; simpl. f_equal. lia.
Qed.

Lemma X1_write_then_completion_witness :
  write_accepted accepting probed = true /\
  usb_hcd_giveback_urb (length (submitted probed)) 0
    (snd (frontpanel_write accepting probed [1; 2; 3] 3)) = probed.
Proof.
  split; [reflexivity|].
  apply (X1_write_then_completion accepting probed [1; 2; 3] 3). reflexivity.
Defined.

Lemma write_frame env dev data count :
  buffer (snd (frontpanel_write env dev data count)) = buffer dev /\
  cpu (snd (frontpanel_write env dev data count)) = cpu dev /\
  sniffer (snd (frontpanel_write env dev data count)) = sniffer dev /\
  disconnected (snd (frontpanel_write env dev data count)) = disconnected dev.
Proof.
  destruct (Z.ltb_spec 0 (limit_sem dev)) as [Hs|Hs].
  2:{ rewrite write_busy by assumption. auto. }
  destruct (Z.leb_spec 0 (errors dev)) as [He|He].
  2:{ rewrite write_latched by assumption. auto. }
  rewrite write_clear by assumption.
  destruct (alloc_urb_ok env); simpl negb; cbv iota; [|auto].
  destruct (alloc_coherent_ok env); simpl negb; cbv iota; [|auto].
  destruct (disconnected dev) eqn:Hd; [auto|].
  destruct (negb _); simpl; auto.
Qed.

(** X2: on every path [frontpanel_write] leaves the payload buffer, the
    per-core samples, the pending state of the sampler and the
    disconnected bit as they were, and the error field is either kept or
    cleared to 0. *)
Theorem X2_write_frame (env : write_env) (dev : usb_frontpanel)
    (data : list Z) (count : Z) :
  buffer (snd (frontpanel_write env dev data count)) = buffer dev /\
  cpu (snd (frontpanel_write env dev data count)) = cpu dev /\
  sniffer (snd (frontpanel_write env dev data count)) = sniffer dev /\
  disconnected (snd (frontpanel_write env dev data count)) = disconnected dev /\
  (errors (snd (frontpanel_write env dev data count)) = errors dev \/
   errors (snd (frontpanel_write env dev data count)) = 0).
Proof.
  destruct (write_frame env dev data count) as (F1 & F2 & F3 & F4).
  repeat split; try assumption.
  destruct (Z.ltb_spec 0 (limit_sem dev)) as [Hs|Hs].
  2:{ rewrite write_busy by assumption. auto. }
  destruct (Z.leb_spec 0 (errors dev)) as [He|He].
  2:{ rewrite write_latched by assumption. auto. }
  rewrite write_clear by assumption. left.
  destruct (alloc_urb_ok env); simpl negb; cbv iota; [|reflexivity].
  destruct (alloc_coherent_ok env); simpl negb; cbv iota; [|reflexivity].
  destruct (disconnected dev); [reflexivity|].
  destruct (negb _); reflexivity.
Qed.

(** X3: a write that finds a slot and no pending error but is not
    accepted changes nothing in the device: an allocation failure or a
    device that is gone leaves it identical, and a refusal by
    [usb_submit_urb] returns the refusal code and adds one log line. *)
Theorem X3_failed_write_leaves_device (env : write_env) (dev : usb_frontpanel)
    (data : list Z) (count : Z) :
  0 < limit_sem dev ->
  0 <= errors dev ->
  write_accepted env dev = false ->
  (frontpanel_write env dev data count = (- ENOMEM, dev) /\
   (alloc_urb_ok env = false \/ alloc_coherent_ok env = false)) \/
  (frontpanel_write env dev data count = (- ENODEV, dev) /\
   disconnected dev = true) \/
  (frontpanel_write env dev data count
     = (submit_urb_ret env, dev_err (SubmitFailed (submit_urb_ret env)) dev) /\
   submit_urb_ret env <> 0).
Proof.
  intros Hs He Ha. rewrite write_clear by assumption.
  unfold write_accepted in Ha.
  destruct (Z.ltb_spec 0 (limit_sem dev)); [|lia].
  destruct (Z.leb_spec 0 (errors dev)); [|lia].
  simpl in Ha.
  destruct (alloc_urb_ok env); simpl negb; cbv iota; [|now left; auto].
  destruct (alloc_coherent_ok env); simpl negb; cbv iota; [|now left; auto].
  destruct (disconnected dev); [now right; left|].
  simpl in Ha. rewrite Ha. simpl. right. right. split; [reflexivity|].
  now apply Z.eqb_neq.
Qed.

Lemma X3_failed_write_leaves_device_witness :
  0 < limit_sem probed /\ 0 <= errors probed /\
  write_accepted (WriteEnv true true (- EPROTO)) probed = false /\
  frontpanel_write (WriteEnv true true (- EPROTO)) probed [1] 1
    = (- EPROTO, dev_err (SubmitFailed (- EPROTO)) probed).
Proof.
  split; [reflexivity|]. split; [discriminate|]. split; [reflexivity|].
  destruct (X3_failed_write_leaves_device (WriteEnv true true (- EPROTO))
              probed [1] 1) as [[H _]|[[H _]|[H _]]];
    [reflexivity | discriminate | reflexivity | | | ];
    try exact H; vm_compute in H; discriminate H.
Defined.

(** X4: the slot is tested before the error field.  With no slot free a
    pending error is neither reported nor cleared; it is reported by the
    first write that finds a slot, here after one URB has completed
    successfully. *)
Theorem X4_error_survives_busy_write (env1 env2 : write_env)
    (dev : usb_frontpanel) (data1 data2 : list Z) (count1 count2 : Z) :
  limit_sem dev = 0 ->
  errors dev < 0 ->
  frontpanel_write env1 dev data1 count1 = (- EAGAIN, dev) /\
  fst (frontpanel_write env2
         (frontpanel_write_bulk_callback 0
            (snd (frontpanel_write env1 dev data1 count1)))
         data2 count2) = reported (errors dev).
Proof.
  intros Hs He.
  assert (Hb : frontpanel_write env1 dev data1 count1 = (- EAGAIN, dev))
    by (apply write_busy; lia).
  split; [exact Hb|]. rewrite Hb. simpl snd.
  rewrite write_latched.
  - reflexivity.
  - rewrite callback_limit_sem. lia.
  - exact He.
Qed.

Lemma X4_error_survives_busy_write_witness :
  limit_sem (set_errors (- EPIPE) (set_limit_sem 0 probed)) = 0 /\
  errors (set_errors (- EPIPE) (set_limit_sem 0 probed)) < 0 /\
  frontpanel_write accepting (set_errors (- EPIPE) (set_limit_sem 0 probed))
    [1] 1 = (- EAGAIN, set_errors (- EPIPE) (set_limit_sem 0 probed)) /\
  fst (frontpanel_write accepting
         (frontpanel_write_bulk_callback 0
            (snd (frontpanel_write accepting
                    (set_errors (- EPIPE) (set_limit_sem 0 probed)) [1] 1)))
         [2] 1) = - EPIPE.
Proof.
  split; [reflexivity|]. split; [reflexivity|].
  apply (X4_error_survives_busy_write accepting accepting
           (set_errors (- EPIPE) (set_limit_sem 0 probed)) [1] [2] 1 1);
    reflexivity.
Defined.

Lemma completions_snoc statuses status dev :
  completions (statuses ++ [status]) dev
  = frontpanel_write_bulk_callback status (completions statuses dev).
Proof. unfold completions. now rewrite foldl_snoc. Qed.

Lemma callback_dmesg status dev :
  dmesg (frontpanel_write_bulk_callback status dev)
  = dmesg dev ++ (if logged status then [BulkStatus status] else []).
Proof.
  unfold frontpanel_write_bulk_callback, logged.
  destruct (status =? 0); simpl; [now rewrite app_nil_r|].
  destruct (benign status); simpl; [now rewrite app_nil_r | reflexivity].
Qed.

Lemma callback_errors_zero dev :
  errors (frontpanel_write_bulk_callback 0 dev) = errors dev.
Proof. reflexivity. Qed.

(** X5: after any number of completions the error field holds the last
    non-zero status among them (a later success does not clear it, a
    later failure overwrites it), or its old value when all succeeded;
    one slot has been returned per completion, and the log has gained
    one line per status that is neither 0 nor an unlink code, in
    order. *)
Theorem X5_last_failure_wins (statuses : list Z) (dev : usb_frontpanel) :
  errors (completions statuses dev)
    = List.last (List.filter (fun s => negb (s =? 0)) statuses) (errors dev) /\
  limit_sem (completions statuses dev)
    = limit_sem dev + Z.of_nat (length statuses) /\
  dmesg (completions statuses dev)
    = dmesg dev ++ map BulkStatus (List.filter logged statuses).
Proof.
  induction statuses as [|status statuses IH] using rev_ind.
  { simpl. rewrite app_nil_r. repeat split; lia. }
  destruct IH as (IH1 & IH2 & IH3).
  rewrite completions_snoc, !List.filter_app. simpl List.filter.
  rewrite callback_limit_sem, callback_dmesg, IH2, IH3, length_app.
  repeat split.
  - destruct (Z.eqb_spec status 0) as [->|Hnz].
    + rewrite callback_errors_zero. simpl negb. cbv iota.
      rewrite app_nil_r. exact IH1.
    + simpl negb. cbv iota.
      rewrite List.last_last. now apply callback_errors.
  - simpl. lia.
  - rewrite <- app_assoc. f_equal.
    destruct (logged status); simpl.
    + now rewrite map_app.
    + now rewrite !app_nil_r.
Qed.

(** ** Histories *)

Lemma draw_down_limit_sem arrivals dev :
  limit_sem (frontpanel_draw_down arrivals dev) = slots dev.
Proof.
  destruct (draw_down_spec arrivals dev) as (H1 & H2 & _).
  unfold slots at 1 in H2. rewrite H1 in H2. simpl in H2. lia.
Qed.

Lemma disconnect_frame dev :
  buffer (disconnect_quiesce dev) = buffer dev /\
  cpu (disconnect_quiesce dev) = cpu dev /\
  limit_sem (disconnect_quiesce dev) = slots dev.
Proof.
  unfold disconnect_quiesce.
  set (dev1 := set_disconnected true (rackmeter_stop_cpu_sniffer dev)).
  destruct (kill_anchored_spec dev1) as (_ & K2 & _ & _ & K5 & K6).
  rewrite K2, K5, K6. auto.
Qed.

Lemma step_limit_sem dev e :
  0 <= limit_sem dev -> 0 <= limit_sem (step dev e).
Proof.
  intros H. destruct e as [env data count|i st|arrivals|arrivals|]; simpl.
  - destruct (write_accepted env dev) eqn:Ha.
    + rewrite write_accepted_spec by assumption. simpl.
      unfold write_accepted in Ha.
      destruct (Z.ltb_spec 0 (limit_sem dev)); [lia | discriminate].
    + destruct (write_rejected_spec env dev data count Ha) as (-> & _). exact H.
  - unfold usb_hcd_giveback_urb.
    destruct (submitted dev !! i); [|exact H].
    rewrite callback_limit_sem. simpl. lia.
  - rewrite draw_down_limit_sem. unfold slots. lia.
  - rewrite draw_down_limit_sem. unfold slots. lia.
  - destruct (disconnect_frame dev) as (_ & _ & ->). unfold slots. lia.
Qed.

Lemma run_limit_sem es : forall dev,
  0 <= limit_sem dev -> 0 <= limit_sem (run dev es).
Proof.
  induction es as [|e es IH]; intros dev H; [exact H|].
  simpl. apply IH, step_limit_sem, H.
Qed.

(** X6: along every history of a probed device at most
    [WRITES_IN_FLIGHT] URBs are anchored, and the semaphore count stays
    between 0 and [WRITES_IN_FLIGHT]. *)
Theorem X6_in_flight_bounded (es : list event) :
  0 <= limit_sem (run probed es) <= WRITES_IN_FLIGHT /\
  (length (submitted (run probed es)) <= Z.to_nat WRITES_IN_FLIGHT)%nat.
Proof.
  pose proof (run_limit_sem es probed ltac:(discriminate)) as Hl.
  pose proof (run_slots es probed) as Hs.
  rewrite probed_slots in Hs. unfold slots in Hs.
  unfold WRITES_IN_FLIGHT in *. lia.
Qed.

Lemma step_urbs_fit dev e :
  Forall urb_fits (submitted dev) -> Forall urb_fits (submitted (step dev e)).
Proof.
  intros H. destruct e as [env data count|i st|arrivals|arrivals|]; simpl.
  - destruct (write_accepted env dev) eqn:Ha.
    + rewrite write_accepted_spec by assumption. simpl.
      apply Forall_app. split; [exact H|].
      constructor; [|constructor].
      unfold urb_fits, PANEL_DATA_SIZE. simpl.
      rewrite length_take. lia.
    + now destruct (write_rejected_spec env dev data count Ha) as (_ & -> & _).
  - unfold usb_hcd_giveback_urb.
    destruct (submitted dev !! i); [|exact H].
    rewrite callback_submitted. simpl. now apply Forall_delete.
  - destruct (draw_down_spec arrivals dev) as (-> & _). constructor.
  - destruct (draw_down_spec arrivals dev) as (-> & _). constructor.
  - destruct (disconnect_spec dev) as (-> & _). constructor.
Qed.

(** X7: along every history of a probed device each anchored URB
    carries at most [PANEL_DATA_SIZE] bytes, whatever lengths the writes
    were called with. *)
Theorem X7_urbs_fit (es : list event) :
  Forall urb_fits (submitted (run probed es)).
Proof.
  assert (H : forall dev, Forall urb_fits (submitted dev) ->
                          Forall urb_fits (submitted (run dev es))).
  { induction es as [|e es IH]; intros dev Hd; [exact Hd|].
    simpl. apply IH, step_urbs_fit, Hd. }
  apply H. constructor.
Qed.

(** X9: writes, completions, suspends, resets and the disconnect never
    touch the payload buffer or the per-core samples; only the sampler
    does. *)
Theorem X9_history_keeps_samples (es : list event) (dev : usb_frontpanel) :
  buffer (run dev es) = buffer dev /\ cpu (run dev es) = cpu dev.
Proof.
  revert dev. induction es as [|e es IH]; intros dev; [auto|].
  simpl. destruct (IH (step dev e)) as [-> ->].
  destruct e as [env data count|i st|arrivals|arrivals|]; simpl.
  - destruct (write_frame env dev data count) as (-> & -> & _). auto.
  - destruct (giveback_frame i st dev) as (_ & _ & -> & ->). auto.
  - destruct (draw_down_spec arrivals dev) as (_ & _ & _ & _ & -> & ->). auto.
  - destruct (draw_down_spec arrivals dev) as (_ & _ & _ & _ & -> & ->). auto.
  - destruct (disconnect_frame dev) as (-> & -> & _). auto.
Qed.

(** ** Detach, drain, reset, attach *)

Lemma kill_urb_errors dev :
  errors (usb_kill_urb dev) = - ENOENT /\ dmesg (usb_kill_urb dev) = dmesg dev.
Proof. split; reflexivity. Qed.

Lemma kill_urbs_errors n : forall dev,
  errors (kill_urbs n dev) = (if n is O then errors dev else - ENOENT) /\
  dmesg (kill_urbs n dev) = dmesg dev.
Proof.
  induction n as [|n IH]; intros dev; [auto|].
  simpl kill_urbs. destruct (IH (usb_kill_urb dev)) as [-> ->].
  destruct (kill_urb_errors dev) as [-> ->].
  split; [now destruct n | reflexivity].
Qed.

(** X10: [frontpanel_disconnect] frees the structure, and when it does
    nothing refers to it any more: the sampler work is cancelled, the
    disconnected bit is set, no URB is anchored and every URB that was
    in flight has given back its slot.  Killing a URB leaves [-ENOENT] in
    the error field and writes nothing to the log; buffer and samples
    are as they were. *)
Theorem X10_disconnect_effect (dev : usb_frontpanel) :
  frontpanel_disconnect dev = None /\
  sniffer (disconnect_quiesce dev) = false /\
  disconnected (disconnect_quiesce dev) = true /\
  submitted (disconnect_quiesce dev) = [] /\
  limit_sem (disconnect_quiesce dev)
    = limit_sem dev + Z.of_nat (length (submitted dev)) /\
  errors (disconnect_quiesce dev)
    = (if submitted dev is [] then errors dev else - ENOENT) /\
  dmesg (disconnect_quiesce dev) = dmesg dev /\
  buffer (disconnect_quiesce dev) = buffer dev /\
  cpu (disconnect_quiesce dev) = cpu dev.
Proof.
  destruct (disconnect_frame dev) as (F1 & F2 & F3).
  destruct (disconnect_spec dev) as (D1 & _ & D3 & D4).
  split; [reflexivity|].
  split; [exact D4|]. split; [exact D3|]. split; [exact D1|].
  split; [exact F3|].
  split.
  { unfold disconnect_quiesce, usb_kill_anchored_urbs.
    destruct (kill_urbs_errors
                (length (submitted (set_disconnected true
                                      (rackmeter_stop_cpu_sniffer dev))))
                (set_disconnected true (rackmeter_stop_cpu_sniffer dev)))
      as [-> _].
    simpl. now destruct (submitted dev). }
  split.
  { unfold disconnect_quiesce, usb_kill_anchored_urbs.
    now destruct (kill_urbs_errors
                (length (submitted (set_disconnected true
                                      (rackmeter_stop_cpu_sniffer dev))))
                (set_disconnected true (rackmeter_stop_cpu_sniffer dev)))
      as [_ ->]. }
  split; [exact F1 | exact F2].
Qed.

Lemma draw_down_drained arrivals dev :
  submitted dev = [] -> frontpanel_draw_down arrivals dev = dev.
Proof.
  intros Hs. unfold frontpanel_draw_down, usb_wait_anchor_empty_timeout.
  rewrite wait_anchor_drained by assumption. reflexivity.
Qed.

(** X11: draining is idempotent: once [frontpanel_draw_down] has run,
    running it again, with whatever completions, changes nothing; in
    particular suspending a device with nothing in flight leaves it
    untouched. *)
Theorem X11_draw_down_idempotent (arrivals1 arrivals2 : list arrival)
    (dev : usb_frontpanel) :
  frontpanel_draw_down arrivals2 (frontpanel_draw_down arrivals1 dev)
    = frontpanel_draw_down arrivals1 dev /\
  (submitted dev = [] ->
   frontpanel_suspend arrivals1 (Some dev) = (0, Some dev)).
Proof.
  split.
  - apply draw_down_drained. apply draw_down_spec.
  - intros Hs. unfold frontpanel_suspend. now rewrite draw_down_drained.
Qed.

(** X12: after the pre-reset and post-reset hooks nothing is in flight
    and the first write returns [-EPIPE], whatever the error field held
    before and whatever the environment would answer; the error is
    cleared by that write, and on a connected device the next accepted
    write goes through. *)
Theorem X12_reset_reported_once (arrivals : list arrival)
    (dev : usb_frontpanel) (env : write_env) (data1 data2 : list Z)
    (count1 count2 : Z) :
  0 < slots dev ->
  disconnected dev = false ->
  let dev1 :=
    snd (frontpanel_post_reset (snd (frontpanel_pre_reset arrivals dev))) in
  submitted dev1 = [] /\
  frontpanel_write env dev1 data1 count1 = (- EPIPE, set_errors 0 dev1) /\
  fst (frontpanel_write accepting
         (snd (frontpanel_write env dev1 data1 count1)) data2 count2)
    = Z.min count2 PANEL_DATA_SIZE.
Proof.
  intros Hsl Hd dev1.
  destruct (draw_down_spec arrivals dev) as (D1 & _ & D3 & _).
  pose proof (draw_down_limit_sem arrivals dev) as Dl.
  assert (Hw : frontpanel_write env dev1 data1 count1
               = (- EPIPE, set_errors 0 dev1)).
  { rewrite write_latched; [reflexivity | | reflexivity].
    unfold dev1. simpl. lia. }
  split; [exact D1|]. split; [exact Hw|].
  rewrite Hw. simpl snd.
  rewrite write_accepted_spec; [reflexivity|].
  unfold write_accepted, dev1. simpl. rewrite D3, Hd, Dl.
  destruct (Z.ltb_spec 0 (slots dev)); [reflexivity | lia].
Qed.

Lemma X12_reset_reported_once_witness :
  0 < slots (run probed [Write accepting [1] 1]) /\
  disconnected (run probed [Write accepting [1] 1]) = false /\
  frontpanel_write accepting
    (snd (frontpanel_post_reset
            (snd (frontpanel_pre_reset [] (run probed [Write accepting [1] 1])))))
    [2] 1
  = (- EPIPE, probed).
Proof.
  split; [reflexivity|]. split; [reflexivity|].
  destruct (X12_reset_reported_once [] (run probed [Write accepting [1] 1])
              accepting [2] [3] 1 1) as (_ & H & _);
    [reflexivity | reflexivity | exact H].
Defined.

(** X13: [frontpanel_probe] fails with [-ENOMEM] when the structure
    cannot be allocated and with the code of
    [usb_find_common_endpoints] when there is no bulk-out endpoint,
    leaving no device and no queued work; otherwise it returns 0 and the
    same device whatever cores are online: [WRITES_IN_FLIGHT] free
    slots, nothing anchored, no error, connected, a zero buffer, zero
    samples and the sampler queued. *)
Theorem X13_probe_outcomes (kzalloc_ok : bool) (find_endpoints_ret : Z)
    (nr_cpu_ids : nat) (cpu_online_mask : Z) :
  frontpanel_probe kzalloc_ok find_endpoints_ret nr_cpu_ids cpu_online_mask
  = if negb kzalloc_ok then (- ENOMEM, None)
    else if find_endpoints_ret =? 0
         then (0, Some (UsbFrontpanel 8 [] 0 false true
                          (replicate 32 0)
                          (replicate 16 (RackmeterCpu 0 0)) []))
         else (find_endpoints_ret, None).
Proof.
  destruct kzalloc_ok; [|reflexivity].
  destruct (Z.eqb_spec find_endpoints_ret 0) as [->|Hne].
  - rewrite probe_probed. reflexivity.
  - unfold frontpanel_probe. simpl negb. cbv iota.
    destruct (Z.eqb_spec find_endpoints_ret 0); [contradiction|reflexivity].
Qed.

Lemma online_cpus_spec nr_cpu_ids cpu_online_mask c :
  In c (online_cpus nr_cpu_ids cpu_online_mask) <->
  (c < nr_cpu_ids)%nat /\ Z.testbit cpu_online_mask (Z.of_nat c) = true.
Proof.
  unfold online_cpus. rewrite List.filter_In, in_seq. intuition lia.
Qed.

Lemma init_loop_spec (l : list nat) (dev : usb_frontpanel) (c : nat) :
  let dev' :=
    foldl (fun dev c =>
             if (15 <? c)%nat then dev
             else set_cpu (<[c := RackmeterCpu 0 0]> (cpu dev)) dev) dev l in
  limit_sem dev' = limit_sem dev /\ submitted dev' = submitted dev /\
  errors dev' = errors dev /\ disconnected dev' = disconnected dev /\
  sniffer dev' = sniffer dev /\ buffer dev' = buffer dev /\
  dmesg dev' = dmesg dev /\ length (cpu dev') = length (cpu dev) /\
  (In c l /\ (c <= 15)%nat -> (c < length (cpu dev))%nat ->
   cpu dev' !! c = Some (RackmeterCpu 0 0)) /\
  (~ (In c l /\ (c <= 15)%nat) -> cpu dev' !! c = cpu dev !! c).
Proof.
  induction l as [|a l IH] using rev_ind.
  { simpl. repeat split; auto. intros [[] _]. }
  cbv zeta in *. rewrite foldl_snoc.
  destruct IH as (I1 & I2 & I3 & I4 & I5 & I6 & I7 & I8 & I9 & I10).
  set (dev1 := foldl _ dev l) in *.
  destruct (Nat.ltb_spec 15 a) as [Ha|Ha].
  - repeat split; try assumption.
    + intros [Hin Hc] Hlen. apply I9; [|exact Hlen].
      split; [|exact Hc]. apply in_app_or in Hin.
      destruct Hin as [Hin|[<-|[]]]; [exact Hin | lia].
    + intros Hn. apply I10. intros [Hin Hc]. apply Hn.
      split; [apply in_or_app; now left | exact Hc].
  - simpl. rewrite length_insert.
    repeat split; try assumption.
    + intros [Hin Hc] Hlen.
      destruct (Nat.eq_dec a c) as [->|Hne].
      * apply list_lookup_insert_eq. lia.
      * rewrite list_lookup_insert_ne by assumption.
        apply I9; [|exact Hlen]. split; [|exact Hc].
        apply in_app_or in Hin. destruct Hin as [Hin|[Heq|[]]];
          [exact Hin | contradiction].
    + intros Hn.
      assert (Hne : a <> c).
      { intros ->. apply Hn. split; [|exact Ha].
        apply in_or_app. right. now left. }
      rewrite list_lookup_insert_ne by assumption.
      apply I10. intros [Hin Hc]. apply Hn.
      split; [apply in_or_app; now left | exact Hc].
Qed.

(** X14: [rackmeter_init_cpu_sniffer], on any device, clears the sample
    of every online core below 16, leaves the samples of all other cores
    and every other field as they were, and queues the work. *)
Theorem X14_init_cpu_sniffer (nr_cpu_ids : nat) (cpu_online_mask : Z)
    (dev : usb_frontpanel) (c : nat) :
  let dev' := rackmeter_init_cpu_sniffer nr_cpu_ids cpu_online_mask dev in
  sniffer dev' = true /\
  limit_sem dev' = limit_sem dev /\ submitted dev' = submitted dev /\
  errors dev' = errors dev /\ disconnected dev' = disconnected dev /\
  buffer dev' = buffer dev /\ length (cpu dev') = length (cpu dev) /\
  (sampled nr_cpu_ids cpu_online_mask c -> (c < length (cpu dev))%nat ->
   cpu dev' !! c = Some (RackmeterCpu 0 0)) /\
  (~ sampled nr_cpu_ids cpu_online_mask c -> cpu dev' !! c = cpu dev !! c).
Proof.
  intros dev'. unfold dev', rackmeter_init_cpu_sniffer, sampled.
  destruct (init_loop_spec (online_cpus nr_cpu_ids cpu_online_mask) dev c)
    as (I1 & I2 & I3 & I4 & I5 & I6 & I7 & I8 & I9 & I10).
  simpl. repeat split; assumption.
Qed.

(** ** The sampler, core by core *)

Section Cores.
Variable get_cpu_idle_time : nat -> Z * Z.

(** The step of a core below 16 that returns. *)
Lemma do_timer_cpu_at dev updated a dev1 updated1 :
  (a <= 15)%nat ->
  (a < length (buffer dev))%nat -> (a < length (cpu dev))%nat ->
  do_timer_cpu get_cpu_idle_time (dev, updated) a = Ok (dev1, updated1) ->
  exists load,
    core_load get_cpu_idle_time dev a = Ok load /\
    buffer dev1 !! a = Some (to_u8 load) /\
    cpu dev1 !! a = Some (RackmeterCpu (snd (get_cpu_idle_time a))
                                       (fst (get_cpu_idle_time a))).
Proof using Type.
  intros Ha Hb Hc. unfold do_timer_cpu, core_load.
  destruct (Nat.ltb_spec 15 a); [lia|].
  destruct (get_cpu_idle_time a) as [cpu_idle cpu_wall]. simpl fst. simpl snd.
  destruct (rackmeter_load _ _) as [load|]; [|discriminate].
  simpl bind. intros Hstep. exists load. split; [reflexivity|].
  revert Hstep.
  destruct (Z.eqb_spec (default 0 (buffer dev !! a)) (to_u8 load)) as [He|He];
    simpl negb; cbv iota; intros [= <- <-]; simpl.
  - split; [|now apply list_lookup_insert_eq].
    destruct (lookup_lt_is_Some_2 (buffer dev) a Hb) as [x Hx].
    rewrite Hx in *. simpl in He. now subst.
  - split; now apply list_lookup_insert_eq.
Qed.

Lemma do_timer_cpu_lengths dev updated a dev1 updated1 :
  do_timer_cpu get_cpu_idle_time (dev, updated) a = Ok (dev1, updated1) ->
  length (buffer dev1) = length (buffer dev) /\
  length (cpu dev1) = length (cpu dev) /\
  (forall j, (j <> a \/ (15 < a)%nat) ->
     buffer dev1 !! j = buffer dev !! j /\ cpu dev1 !! j = cpu dev !! j).
Proof using Type.
  unfold do_timer_cpu.
  destruct (Nat.ltb_spec 15 a) as [Ha|Ha].
  { intros [= <- <-]. auto. }
  destruct (get_cpu_idle_time a) as [cpu_idle cpu_wall].
  destruct (rackmeter_load _ _) as [load|]; [|discriminate].
  simpl bind.
  destruct (negb _); intros [= <- <-]; simpl; rewrite ?length_insert;
    (split; [reflexivity|]; split; [reflexivity|]);
    intros j [Hj|Hj]; try lia;
    rewrite ?list_lookup_insert_ne by congruence; auto.
Qed.

(** Cores the loop does not sample keep their byte and their sample. *)
Lemma loop_others (l : list nat) : forall dev updated dev' updated' j,
  foldM (do_timer_cpu get_cpu_idle_time) (dev, updated) l = Ok (dev', updated') ->
  ~ (In j l /\ (j <= 15)%nat) ->
  length (buffer dev') = length (buffer dev) /\
  length (cpu dev') = length (cpu dev) /\
  buffer dev' !! j = buffer dev !! j /\ cpu dev' !! j = cpu dev !! j.
Proof using Type.
  induction l as [|a l IH]; intros dev updated dev' updated' j.
  { simpl. intros [= <- <-] _. auto. }
  cbn [foldM].
  destruct (do_timer_cpu get_cpu_idle_time (dev, updated) a)
    as [[dev1 updated1]|] eqn:Hstep; [|discriminate].
  simpl bind. intros Hrest Hj.
  destruct (do_timer_cpu_lengths _ _ _ _ _ Hstep) as (S1 & S2 & S3).
  destruct (IH _ _ _ _ j Hrest) as (R1 & R2 & R3 & R4).
  { intros [Hin Hle]. apply Hj. split; [now right | exact Hle]. }
  rewrite R1, R2, R3, R4, S1, S2.
  destruct (S3 j) as [-> ->]; [|auto].
  destruct (Nat.eq_dec j a) as [->|Hne]; [|now left].
  right. destruct (Nat.ltb_spec 15 a); [assumption|].
  exfalso. apply Hj. split; [now left | lia].
Qed.

(** Cores the loop samples end with the byte of their load and with the
    reading as their sample. *)
Lemma loop_at (l : list nat) : forall dev updated dev' updated' c,
  NoDup l ->
  (16 <= length (buffer dev))%nat -> (16 <= length (cpu dev))%nat ->
  foldM (do_timer_cpu get_cpu_idle_time) (dev, updated) l = Ok (dev', updated') ->
  In c l -> (c <= 15)%nat ->
  exists load,
    core_load get_cpu_idle_time dev c = Ok load /\
    buffer dev' !! c = Some (to_u8 load) /\
    cpu dev' !! c = Some (RackmeterCpu (snd (get_cpu_idle_time c))
                                       (fst (get_cpu_idle_time c))).
Proof using Type.
  induction l as [|a l IH]; intros dev updated dev' updated' c Hnd Hb Hc;
    [intros _ []|].
  apply NoDup_cons in Hnd. destruct Hnd as [Hna Hnd].
  assert (Ha : ~ In a l) by (intros H; apply Hna; now apply list_elem_of_In).
  cbn [foldM].
  destruct (do_timer_cpu get_cpu_idle_time (dev, updated) a)
    as [[dev1 updated1]|] eqn:Hstep; [|discriminate].
  simpl bind. intros Hrest Hin Hle.
  destruct (do_timer_cpu_lengths _ _ _ _ _ Hstep) as (S1 & S2 & S3).
  destruct Hin as [->|Hin].
  - assert (Hbc : (c < length (buffer dev))%nat) by lia.
    assert (Hcc : (c < length (cpu dev))%nat) by lia.
    destruct (do_timer_cpu_at dev updated c dev1 updated1 Hle Hbc Hcc Hstep)
      as (load & L1 & L2 & L3).
    exists load. split; [exact L1|].
    destruct (loop_others l _ _ _ _ c Hrest) as (_ & _ & -> & ->); [tauto|].
    auto.
  - assert (Hne : c <> a) by (intros ->; contradiction).
    assert (Hb1 : (16 <= length (buffer dev1))%nat) by lia.
    assert (Hc1 : (16 <= length (cpu dev1))%nat) by lia.
    destruct (IH dev1 updated1 dev' updated' c Hnd Hb1 Hc1 Hrest Hin Hle)
      as (load & L1 & L2 & L3).
    exists load. split; [|auto].
    rewrite <- L1. symmetry. apply core_load_ext.
    now destruct (S3 c) as [_ ->]; [left|].
Qed.

End Cores.

(** The loop inside a cycle that returns. *)
Lemma do_timer_loop nr_cpu_ids cpu_online_mask get_cpu_idle_time env dev
    dev' calls :
  rackmeter_do_timer nr_cpu_ids cpu_online_mask get_cpu_idle_time env dev
    = Ok (dev', calls) ->
  exists dev1 updated,
    foldM (do_timer_cpu get_cpu_idle_time) (dev, false)
          (online_cpus nr_cpu_ids cpu_online_mask) = Ok (dev1, updated) /\
    buffer dev' = buffer dev1 /\ cpu dev' = cpu dev1.
Proof.
  unfold rackmeter_do_timer.
  destruct (foldM _ _ _) as [[dev1 updated]|]; [|discriminate].
  simpl bind. exists dev1, updated. split; [reflexivity|].
  destruct updated.
  - destruct (write_frame env dev1 (buffer dev1) PANEL_DATA_SIZE)
      as (F1 & F2 & _).
    destruct (frontpanel_write env dev1 (buffer dev1) PANEL_DATA_SIZE)
      as [ret dev2]. simpl in F1, F2.
    injection H as <- _. destruct (ret <=? 0); simpl; auto.
  - injection H as <- _. auto.
Qed.

(** X15: after a cycle that returns, every online core below 16 has the
    low byte of its load in its channel and the reading just taken as
    its sample, whether or not the byte changed and whatever became of
    the write. *)
Theorem X15_cycle_stores_load (nr_cpu_ids : nat) (cpu_online_mask : Z)
    (get_cpu_idle_time : nat -> Z * Z) (env : write_env)
    (dev dev' : usb_frontpanel) (calls : list write_call) (c : nat) :
  length (buffer dev) = Z.to_nat PANEL_DATA_SIZE ->
  length (cpu dev) = RACKMETER_CPUS ->
  rackmeter_do_timer nr_cpu_ids cpu_online_mask get_cpu_idle_time env dev
    = Ok (dev', calls) ->
  sampled nr_cpu_ids cpu_online_mask c ->
  exists load,
    core_load get_cpu_idle_time dev c = Ok load /\
    buffer dev' !! c = Some (to_u8 load) /\
    cpu dev' !! c = Some (RackmeterCpu (snd (get_cpu_idle_time c))
                                       (fst (get_cpu_idle_time c))).
Proof.
  intros Hb Hc Hcycle [Hin Hle].
  destruct (do_timer_loop _ _ _ _ _ _ _ Hcycle) as (dev1 & updated & Hloop & -> & ->).
  apply (loop_at get_cpu_idle_time _ dev false dev1 updated c
           (online_cpus_NoDup nr_cpu_ids cpu_online_mask));
    try assumption.
  - rewrite Hb. unfold PANEL_DATA_SIZE. lia.
  - rewrite Hc. unfold RACKMETER_CPUS. lia.
Qed.

Lemma X15_cycle_stores_load_witness :
  length (buffer probed) = Z.to_nat PANEL_DATA_SIZE /\
  length (cpu probed) = RACKMETER_CPUS /\
  sampled 2 3 1%nat /\
  exists dev' calls load,
    rackmeter_do_timer 2 3 (fun _ => (100, 400)) accepting probed
      = Ok (dev', calls) /\
    core_load (fun _ => (100, 400)) probed 1%nat = Ok load /\
    buffer dev' !! 1%nat = Some (to_u8 load) /\
    cpu dev' !! 1%nat = Some (RackmeterCpu 400 100).
Proof.
  assert (Hs : sampled 2 3 1%nat) by (split; [right; now left | lia]).
  split; [reflexivity|]. split; [reflexivity|]. split; [exact Hs|].
  eexists _, _.
  destruct (X15_cycle_stores_load 2 3 (fun _ => (100, 400)) accepting probed
              _ _ 1%nat eq_refl eq_refl eq_refl Hs) as (load & H1 & H2 & H3).
  exists load. split; [reflexivity|]. auto.
Defined.

(** X16: a cycle that returns leaves the channel and the sample of every
    core that is offline or numbered 16 and above as they were; bytes 16
    to 31 of the payload are never written. *)
Theorem X16_cycle_keeps_other_cores (nr_cpu_ids : nat) (cpu_online_mask : Z)
    (get_cpu_idle_time : nat -> Z * Z) (env : write_env)
    (dev dev' : usb_frontpanel) (calls : list write_call) (j : nat) :
  rackmeter_do_timer nr_cpu_ids cpu_online_mask get_cpu_idle_time env dev
    = Ok (dev', calls) ->
  ~ sampled nr_cpu_ids cpu_online_mask j ->
  buffer dev' !! j = buffer dev !! j /\ cpu dev' !! j = cpu dev !! j.
Proof.
  intros Hcycle Hj.
  destruct (do_timer_loop _ _ _ _ _ _ _ Hcycle) as (dev1 & updated & Hloop & -> & ->).
  now destruct (loop_others get_cpu_idle_time _ _ _ _ _ j Hloop Hj)
    as (_ & _ & -> & ->).
Qed.

Lemma X16_cycle_keeps_other_cores_witness :
  ~ sampled 18 (2 ^ 17 + 1) 17%nat /\
  exists dev' calls,
    rackmeter_do_timer 18 (2 ^ 17 + 1) (fun _ => (100, 400)) accepting probed
      = Ok (dev', calls) /\
    buffer dev' !! 17%nat = buffer probed !! 17%nat /\
    cpu dev' !! 17%nat = cpu probed !! 17%nat.
Proof.
  assert (Hn : ~ sampled 18 (2 ^ 17 + 1) 17%nat) by (intros [_ H]; lia).
  split; [exact Hn|].
  eexists _, _. split; [reflexivity|].
  apply (X16_cycle_keeps_other_cores 18 (2 ^ 17 + 1) (fun _ => (100, 400))
           accepting probed _ _ 17%nat eq_refl Hn).
Defined.

Lemma foldM_readings (get1 get2 : nat -> Z * Z) (l : list nat) :
  (forall c, In c l -> (c <= 15)%nat -> get1 c = get2 c) ->
  forall st, foldM (do_timer_cpu get1) st l = foldM (do_timer_cpu get2) st l.
Proof.
  induction l as [|a l IH]; intros Hext st; [reflexivity|].
  cbn [foldM].
  assert (Hstep : do_timer_cpu get1 st a = do_timer_cpu get2 st a).
  { unfold do_timer_cpu. destruct st as [dev updated].
    destruct (Nat.ltb_spec 15 a) as [Ha|Ha]; [reflexivity|].
    rewrite (Hext a); [reflexivity | now left | exact Ha]. }
  rewrite Hstep. destruct (do_timer_cpu get2 st a); [|reflexivity].
  simpl bind. apply IH. intros c Hin Hc. apply Hext; [now right | exact Hc].
Qed.

(** X17: the readings of cores that are offline or numbered 16 and above
    play no part in a cycle: two sources of readings that agree on the
    online cores below 16 give the same result, fault included. *)
Theorem X17_cycle_reads_sampled_cores (nr_cpu_ids : nat) (cpu_online_mask : Z)
    (get1 get2 : nat -> Z * Z) (env : write_env) (dev : usb_frontpanel) :
  (forall c, sampled nr_cpu_ids cpu_online_mask c -> get1 c = get2 c) ->
  rackmeter_do_timer nr_cpu_ids cpu_online_mask get1 env dev
  = rackmeter_do_timer nr_cpu_ids cpu_online_mask get2 env dev.
Proof.
  intros Hext. unfold rackmeter_do_timer.
  rewrite (foldM_readings get1 get2); [reflexivity|].
  intros c Hin Hc. apply Hext. now split.
Qed.

Lemma X17_cycle_reads_sampled_cores_witness :
  (forall c, sampled 18 (2 ^ 17 + 1) c ->
     (fun _ : nat => (100, 400)) c
     = (fun c : nat => if (c <=? 15)%nat then (100, 400) else (0, 0)) c) /\
  rackmeter_do_timer 18 (2 ^ 17 + 1) (fun _ => (100, 400)) accepting probed
  = rackmeter_do_timer 18 (2 ^ 17 + 1)
      (fun c => if (c <=? 15)%nat then (100, 400) else (0, 0)) accepting probed.
Proof.
  assert (H : forall c, sampled 18 (2 ^ 17 + 1) c ->
     (fun _ : nat => (100, 400)) c
     = (fun c : nat => if (c <=? 15)%nat then (100, 400) else (0, 0)) c).
  { intros c [_ Hc]. simpl. destruct (Nat.leb_spec c 15); [reflexivity | lia]. }
  split; [exact H|].
  apply (X17_cycle_reads_sampled_cores 18 (2 ^ 17 + 1) _ _ accepting probed H).
Defined.

(** X18: when every online core below 16 computes the byte its channel
    already holds, the cycle calls nothing and leaves buffer and log as
    they are -- also when the write of the previous cycle had failed, so
    a payload that was refused is not sent again until a load moves. *)
Theorem X18_same_loads_no_write (nr_cpu_ids : nat) (cpu_online_mask : Z)
    (get_cpu_idle_time : nat -> Z * Z) (env : write_env)
    (dev : usb_frontpanel) :
  length (buffer dev) = Z.to_nat PANEL_DATA_SIZE ->
  length (cpu dev) = RACKMETER_CPUS ->
  (forall c, sampled nr_cpu_ids cpu_online_mask c ->
     exists load, core_load get_cpu_idle_time dev c = Ok load /\
                  buffer dev !! c = Some (to_u8 load)) ->
  exists dev',
    rackmeter_do_timer nr_cpu_ids cpu_online_mask get_cpu_idle_time env dev
      = Ok (dev', []) /\
    buffer dev' = buffer dev /\ dmesg dev' = dmesg dev.
Proof.
  intros Hb Hc Hsame.
  destruct (do_timer_total nr_cpu_ids cpu_online_mask get_cpu_idle_time env dev)
    as [[dev' calls] Hcycle].
  { intros c Hin Hle. destruct (Hsame c (conj Hin Hle)) as (load & -> & _).
    discriminate. }
  destruct (do_timer_loop _ _ _ _ _ _ _ Hcycle)
    as (dev1 & updated & Hloop & Hb1 & Hc1).
  assert (Heq : buffer dev' = buffer dev).
  { rewrite Hb1. apply list_eq. intros j.
    destruct (in_dec Nat.eq_dec j (online_cpus nr_cpu_ids cpu_online_mask))
      as [Hin|Hout].
    - destruct (le_dec j 15) as [Hle|Hgt].
      + destruct (Hsame j (conj Hin Hle)) as (load & Hl & ->).
        destruct (loop_at get_cpu_idle_time _ dev false dev1 updated j
                    (online_cpus_NoDup nr_cpu_ids cpu_online_mask))
          as (load' & Hl' & -> & _); try assumption.
        * rewrite Hb. unfold PANEL_DATA_SIZE. lia.
        * rewrite Hc. unfold RACKMETER_CPUS. lia.
        * congruence.
      + now destruct (loop_others get_cpu_idle_time _ _ _ _ _ j Hloop)
          as (_ & _ & -> & _); [tauto|].
    - now destruct (loop_others get_cpu_idle_time _ _ _ _ _ j Hloop)
        as (_ & _ & -> & _); [tauto|]. }
  destruct (do_timer_returns _ _ _ _ _ _ _ Hb Hcycle) as (_ & _ & _ & R4 & _).
  destruct (R4 Heq) as [-> Hd].
  exists dev'. auto.
Qed.

Lemma X18_same_loads_no_write_witness :
  let dev := set_buffer (<[1%nat := 191]> (<[0%nat := 191]> (buffer probed)))
               probed in
  length (buffer dev) = Z.to_nat PANEL_DATA_SIZE /\
  length (cpu dev) = RACKMETER_CPUS /\
  exists dev',
    rackmeter_do_timer 2 3 (fun _ => (100, 400)) accepting dev = Ok (dev', []) /\
    buffer dev' = buffer dev /\ dmesg dev' = dmesg dev.
Proof.
  intros dev. split; [reflexivity|]. split; [reflexivity|].
  apply (X18_same_loads_no_write 2 3 (fun _ => (100, 400)) accepting dev);
    [reflexivity | reflexivity |].
  intros c [[<-|[<-|[]]] _]; exists 191; split; reflexivity.
Defined.

Lemma to_u8_range z : 0 <= to_u8 z < 256.
Proof. unfold to_u8. apply (Z.mod_pos_bound z (2 ^ 8)). reflexivity. Qed.

Lemma loop_bytes get_cpu_idle_time (l : list nat) :
  forall dev updated dev' updated',
  Forall (fun b => 0 <= b < 256) (buffer dev) ->
  foldM (do_timer_cpu get_cpu_idle_time) (dev, updated) l = Ok (dev', updated') ->
  Forall (fun b => 0 <= b < 256) (buffer dev').
Proof.
  induction l as [|a l IH]; intros dev updated dev' updated' Hb.
  { simpl. now intros [= <- <-]. }
  cbn [foldM].
  destruct (do_timer_cpu get_cpu_idle_time (dev, updated) a)
    as [[dev1 updated1]|] eqn:Hstep; [|discriminate].
  simpl bind. apply IH.
  unfold do_timer_cpu in Hstep.
  destruct (15 <? a)%nat; [now inversion Hstep; subst|].
  destruct (get_cpu_idle_time a) as [cpu_idle cpu_wall].
  destruct (rackmeter_load _ _) as [load|]; [|discriminate].
  simpl bind in Hstep.
  destruct (negb _); inversion Hstep; subst; simpl; [|exact Hb].
  apply Forall_insert; [exact Hb | apply to_u8_range].
Qed.

(** X19: a cycle keeps every byte of the payload buffer within 0..255,
    and the payload it hands to [frontpanel_write], if any, is the whole
    buffer with the length [PANEL_DATA_SIZE]. *)
Theorem X19_payload_bytes (nr_cpu_ids : nat) (cpu_online_mask : Z)
    (get_cpu_idle_time : nat -> Z * Z) (env : write_env)
    (dev dev' : usb_frontpanel) (calls : list write_call) :
  Forall (fun b => 0 <= b < 256) (buffer dev) ->
  rackmeter_do_timer nr_cpu_ids cpu_online_mask get_cpu_idle_time env dev
    = Ok (dev', calls) ->
  Forall (fun b => 0 <= b < 256) (buffer dev') /\
  Forall (fun call => wc_data call = buffer dev' /\
                      wc_count call = PANEL_DATA_SIZE) calls.
Proof.
  intros Hb. unfold rackmeter_do_timer.
  destruct (foldM _ _ _) as [[dev1 updated]|] eqn:Hloop; [|discriminate].
  pose proof (loop_bytes _ _ _ _ _ _ Hb Hloop) as Hb1.
  simpl bind. destruct updated.
  - destruct (write_frame env dev1 (buffer dev1) PANEL_DATA_SIZE) as (F1 & _).
    destruct (frontpanel_write env dev1 (buffer dev1) PANEL_DATA_SIZE)
      as [ret dev2]. simpl in F1.
    intros [= <- <-].
    assert (Hsame : buffer (set_sniffer true
               (if ret <=? 0 then dev_err (WriteFailed ret) dev2 else dev2))
             = buffer dev1) by (destruct (ret <=? 0); exact F1).
    rewrite Hsame. split; [exact Hb1|].
    constructor; [|constructor]. simpl. auto.
  - intros [= <- <-]. simpl. split; [exact Hb1 | constructor].
Qed.

Lemma X19_payload_bytes_witness :
  Forall (fun b => 0 <= b < 256) (buffer probed) /\
  exists dev' calls,
    rackmeter_do_timer 2 3 (fun _ => (100, 400)) accepting probed
      = Ok (dev', calls) /\
    Forall (fun b => 0 <= b < 256) (buffer dev') /\
    Forall (fun call => wc_data call = buffer dev' /\
                        wc_count call = PANEL_DATA_SIZE) calls.
Proof.
  assert (H : Forall (fun b => 0 <= b < 256) (buffer probed)).
  { apply Forall_forall. intros b Hin.
    apply elem_of_replicate in Hin. destruct Hin as [-> _]. lia. }
  split; [exact H|].
  eexists _, _. split; [reflexivity|].
  apply (X19_payload_bytes 2 3 (fun _ => (100, 400)) accepting probed _ _ H
           eq_refl).
Defined.

(** X20: while [255 * (diff_wall - diff_idle)] fits in 64 bits the load
    is the busy share of the interval scaled to 255 and rounded down; an
    idle interval gives 0 and a fully busy one 255. *)
Theorem X20_load_is_busy_share (diff_idle diff_wall : Z) :
  0 <= diff_idle <= diff_wall ->
  0 < diff_wall < 2 ^ 63 ->
  255 * (diff_wall - diff_idle) < 2 ^ 64 ->
  rackmeter_load diff_idle diff_wall
    = Ok (255 * (diff_wall - diff_idle) / diff_wall) /\
  (diff_idle = diff_wall -> rackmeter_load diff_idle diff_wall = Ok 0) /\
  (diff_idle = 0 -> rackmeter_load diff_idle diff_wall = Ok 255).
Proof.
  intros Hi Hw Hfit.
  assert (Hc : clamp_wall diff_idle diff_wall = diff_wall).
  { unfold clamp_wall. destruct (Z.gtb_spec diff_idle diff_wall); lia. }
  destruct (rackmeter_load_value diff_idle diff_wall) as (load & Hl & Hv & _);
    [lia | lia | rewrite Hc; lia |].
  rewrite Hc in Hv. rewrite Z.mod_small in Hv by lia.
  rewrite Hl, Hv. split; [reflexivity|]. split.
  - intros ->. replace (diff_wall - diff_wall) with 0 by lia. reflexivity.
  - intros ->. f_equal. rewrite Z.sub_0_r. apply Z.div_mul. lia.
Qed.

Lemma X20_load_is_busy_share_witness :
  0 <= 100 <= 400 /\ 0 < 400 < 2 ^ 63 /\ 255 * (400 - 100) < 2 ^ 64 /\
  rackmeter_load 100 400 = Ok (255 * (400 - 100) / 400).
Proof.
  split; [lia|]. split; [lia|]. split; [lia|].
  apply (X20_load_is_busy_share 100 400); lia.
Defined.

(** X21: the counters may wrap.  When a counter has advanced by [d],
    with [d] below 2^63, the difference the sampler computes is [d] even
    if the 64-bit counter wrapped around in between; a counter that
    moved back by less than 2^63 gives the negative difference. *)
Theorem X21_counter_wrap (prev d : Z) :
  - 2 ^ 63 <= d < 2 ^ 63 ->
  s64_diff (to_u64 (prev + d)) prev = d.
Proof.
  intros Hd. unfold s64_diff, to_s64, to_u64.
  rewrite Zplus_mod_idemp_l.
  replace ((prev + d) mod 2 ^ 64 - prev + 2 ^ 63)
    with ((prev + d) mod 2 ^ 64 - (prev - 2 ^ 63)) by lia.
  rewrite Zminus_mod_idemp_l.
  replace (prev + d - (prev - 2 ^ 63)) with (d + 2 ^ 63) by lia.
  rewrite Z.mod_small; lia.
Qed.

Lemma X21_counter_wrap_witness :
  - 2 ^ 63 <= 250 < 2 ^ 63 /\
  s64_diff (to_u64 (2 ^ 64 - 100 + 250)) (2 ^ 64 - 100) = 250.
Proof.
  split; [lia|]. apply (X21_counter_wrap (2 ^ 64 - 100) 250). lia.
Defined.

Lemma buffer_is_last_payload_witness :
  length (buffer probed) = Z.to_nat PANEL_DATA_SIZE /\
  match sampler_cycles 2 3
          [(fun _ => (100, 400), accepting);
           (fun _ => (150, 800), WriteEnv true false 0)]
          probed (buffer probed) with
  | Ok r => snd r = buffer (fst r)
  | Oops => False
  end.
Proof.
  split; [reflexivity|].
  destruct (sampler_cycles 2 3
              [(fun _ => (100, 400), accepting);
               (fun _ => (150, 800), WriteEnv true false 0)]
              probed (buffer probed)) as [[dev' emitted']|] eqn:Hrun.
  - apply (buffer_is_last_payload 2 3
             [(fun _ => (100, 400), accepting);
              (fun _ => (150, 800), WriteEnv true false 0)]
             probed (buffer probed) dev' emitted');
      [reflexivity | reflexivity | exact Hrun].
  - vm_compute in Hrun. discriminate Hrun.
Defined.

(** ** Draining, in time and at the deadline *)

Lemma wait_all_complete (n : nat) : forall arrivals now dev,
  Forall (fun a => at_ms a < 1000) arrivals ->
  n = length (submitted dev) ->
  completes_all n arrivals = true ->
  snd (wait_anchor_empty 1000 now arrivals dev)
  = set_submitted [] (set_limit_sem (limit_sem dev + Z.of_nat n) dev).
Proof.
  induction n as [|n IH]; intros arrivals now dev Hin Hn Hall.
  - destruct (submitted dev) eqn:Hs; [|discriminate].
    rewrite wait_anchor_drained by assumption. simpl.
    destruct dev; simpl in *; subst. unfold set_submitted, set_limit_sem.
    simpl. f_equal. lia.
  - destruct arrivals as [|a rest]; [discriminate|].
    cbn [completes_all] in Hall.
    apply andb_prop in Hall. destruct Hall as [Hall Hrest].
    apply andb_prop in Hall. destruct Hall as [Hst Hwh].
    apply Z.eqb_eq in Hst. apply Nat.ltb_lt in Hwh.
    apply Forall_cons in Hin. destruct Hin as [Ha Hin].
    destruct (submitted dev) as [|u anchored] eqn:Hs; [discriminate|].
    cbn [wait_anchor_empty]. rewrite Hs.
    destruct (Z.ltb_spec (at_ms a) 1000); [|lia].
    assert (Hlook : is_Some (submitted dev !! which a)).
    { apply lookup_lt_is_Some. rewrite ?Hs, <- Hn. exact Hwh. }
    destruct Hlook as [v Hv].
    unfold usb_hcd_giveback_urb at 1. rewrite Hv, Hst.
    rewrite IH; [|exact Hin| |exact Hrest].
    + destruct dev; simpl in *.
      unfold frontpanel_write_bulk_callback, up, set_submitted, set_limit_sem.
      simpl. f_equal. lia.
    + rewrite callback_submitted. simpl.
      rewrite length_delete by (rewrite Hv; eauto).
      rewrite ?Hs. simpl in Hn |- *. lia.
Qed.

Lemma filter_in_time (arrivals : list arrival) :
  Forall (fun a => at_ms a < 1000)
         (List.filter (fun a => at_ms a <? 1000) arrivals).
Proof.
  induction arrivals as [|a l IH]; simpl; [constructor|].
  destruct (Z.ltb_spec (at_ms a) 1000); [constructor; assumption | exact IH].
Qed.

(** X22: when the completions that arrive before the deadline, in
    whatever order and at whatever times, bring back every URB in flight
    with status 0, [frontpanel_draw_down] kills nothing: it leaves the
    anchor empty, one more free slot per URB, and the error field, the
    log and everything else as they were. *)
Theorem X22_drain_in_time (arrivals : list arrival) (dev : usb_frontpanel) :
  completes_all (length (submitted dev))
    (List.filter (fun a => at_ms a <? 1000) arrivals) = true ->
  frontpanel_draw_down arrivals dev
  = set_submitted []
      (set_limit_sem (limit_sem dev + Z.of_nat (length (submitted dev))) dev).
Proof.
  intros Hall. unfold frontpanel_draw_down, usb_wait_anchor_empty_timeout.
  rewrite <- wait_anchor_deadline.
  pose proof (wait_all_complete (length (submitted dev)) _ 0 dev
                (filter_in_time arrivals) eq_refl Hall) as Hsnd.
  pose proof (wait_anchor_spec 1000
                (List.filter (fun a => at_ms a <? 1000) arrivals) 0 dev)
    as Hspec. cbv zeta in Hspec.
  destruct (wait_anchor_empty 1000 0 _ dev) as [time dev1].
  simpl in Hsnd, Hspec. destruct Hspec as (_ & _ & _ & _ & _ & H6).
  destruct (Z.eqb_spec time 0) as [Hz|Hnz]; [|exact Hsnd].
  exfalso. apply H6 in Hz. apply Hz. rewrite Hsnd. reflexivity.
Qed.

Lemma X22_drain_in_time_witness :
  completes_all
    (length (submitted (run probed [Write accepting [1] 1;
                                    Write accepting [2] 1])))
    (List.filter (fun a => at_ms a <? 1000)
       [Arrival 100 1 0; Arrival 1200 0 (- EPROTO); Arrival 300 0 0]) = true /\
  frontpanel_draw_down
    [Arrival 100 1 0; Arrival 1200 0 (- EPROTO); Arrival 300 0 0]
    (run probed [Write accepting [1] 1; Write accepting [2] 1])
  = probed.
Proof.
  split; [reflexivity|].
  apply (X22_drain_in_time
           [Arrival 100 1 0; Arrival 1200 0 (- EPROTO); Arrival 300 0 0]
           (run probed [Write accepting [1] 1; Write accepting [2] 1])).
  reflexivity.
Defined.

Lemma late_arrivals_filtered (arrivals : list arrival) :
  Forall (fun a => 1000 <= at_ms a) arrivals ->
  List.filter (fun a => at_ms a <? 1000) arrivals = [].
Proof.
  induction 1 as [|a l Ha _ IH]; [reflexivity|].
  simpl. destruct (Z.ltb_spec (at_ms a) 1000); [lia | exact IH].
Qed.

(** X23: when no completion arrives before the deadline,
    [frontpanel_draw_down] kills every anchored URB; if there was one,
    the error field is left at [-ENOENT] -- so the first write after
    such a suspend fails with [-EIO] -- and nothing is logged. *)
Theorem X23_drain_at_deadline (arrivals : list arrival)
    (dev : usb_frontpanel) :
  Forall (fun a => 1000 <= at_ms a) arrivals ->
  frontpanel_draw_down arrivals dev = usb_kill_anchored_urbs dev /\
  errors (frontpanel_draw_down arrivals dev)
    = (if submitted dev is [] then errors dev else - ENOENT) /\
  dmesg (frontpanel_draw_down arrivals dev) = dmesg dev.
Proof.
  intros Hlate.
  assert (Hk : frontpanel_draw_down arrivals dev = usb_kill_anchored_urbs dev).
  { unfold frontpanel_draw_down, usb_wait_anchor_empty_timeout.
    rewrite <- wait_anchor_deadline, late_arrivals_filtered by assumption.
    simpl. destruct (submitted dev) eqn:Hs; simpl.
    - unfold usb_kill_anchored_urbs. now rewrite Hs.
    - reflexivity. }
  rewrite Hk. split; [reflexivity|].
  unfold usb_kill_anchored_urbs.
  destruct (kill_urbs_errors (length (submitted dev)) dev) as [-> ->].
  split; [|reflexivity]. now destruct (submitted dev).
Qed.

Lemma X23_drain_at_deadline_witness :
  Forall (fun a => 1000 <= at_ms a) [Arrival 1500 0 0] /\
  errors (frontpanel_draw_down [Arrival 1500 0 0]
            (run probed [Write accepting [1] 1])) = - ENOENT.
Proof.
  assert (H : Forall (fun a => 1000 <= at_ms a) [Arrival 1500 0 0])
    by (repeat constructor; simpl; lia).
  split; [exact H|].
  destruct (X23_drain_at_deadline [Arrival 1500 0 0]
              (run probed [Write accepting [1] 1]) H) as (_ & He & _).
  exact He.
Defined.

(** ** A write that finds the device gone *)


